(** * ymsd-sleeper-api: versioned snapshot cache and version promotion

    A shallow embedding of [version_manager.py], [database_manager.py] and
    [config.py].  The cache directory, the S3 bucket, the wall clock and the
    connections opened with [sqlite3.connect] are explicit state; every
    Python method becomes a function on that state.

    Modelling conventions.
    - File names are the literal names produced by the f-strings of
      [config.py], relative to [CACHE_DIR]; no path normalisation is done.
    - Time is counted in whole seconds ([Z]); the clock does not advance
      while one method runs.
    - [try ... except Exception] blocks are followed branch by branch: a
      raising operation is an [option] or an explicit outcome, and the
      handler's return value is the result of the function. *)

From Stdlib Require Import String Ascii List ZArith NArith Bool Lia.
From Stdlib Require Import Permutation Sorted.
Import ListNotations.

Local Open Scope string_scope.
Local Open Scope Z_scope.

(** ** Python values and string methods *)

Module Py.

(** The values of the JSON members the code reads: [None] (a [null] or a
    missing member), a boolean or a string.  Numbers and nested values do
    not occur in the members the model covers. *)
Inductive pyval : Type :=
| PNone
| PBool (b : bool)
| PStr (s : string).

(** [bool(v)] *)
Definition truthy (v : pyval) : bool :=
  match v with
  | PNone => false
  | PBool b => b
  | PStr s => negb (s =? EmptyString)%string
  end.

(** [str(v)], as used by an f-string *)
Definition str (v : pyval) : string :=
  match v with
  | PNone => "None"
  | PBool true => "True"
  | PBool false => "False"
  | PStr s => s
  end.

(** [v == w] *)
Definition eqb (v w : pyval) : bool :=
  match v, w with
  | PNone, PNone => true
  | PBool a, PBool b => Bool.eqb a b
  | PStr a, PStr b => (a =? b)%string
  | _, _ => false
  end.

(** [s.endswith(suf)] *)
Definition endswith (suf s : string) : bool :=
  let n := String.length s in
  let m := String.length suf in
  (m <=? n)%nat && (substring (n - m) m s =? suf)%string.

(** [s.startswith(pre)] *)
Definition startswith (pre s : string) : bool := prefix pre s.

Definition has_slash (s : string) : bool :=
  existsb (Ascii.eqb "/"%char) (list_ascii_of_string s).

(** [s.split('/')[-1]] *)
Fixpoint last_segment (s : string) : string :=
  match s with
  | EmptyString => EmptyString
  | String c s' =>
      if has_slash s' then last_segment s'
      else if Ascii.eqb c "/"%char then s' else s
  end.

(** [s.replace(old, new)] for a non-empty [old]: occurrences are replaced
    from left to right and do not overlap.  [skip] counts the characters of
    a matched occurrence that are still to be dropped. *)
Fixpoint replace_from (old new : string) (skip : nat) (s : string) : string :=
  match s with
  | EmptyString => EmptyString
  | String c s' =>
      match skip with
      | S k => replace_from old new k s'
      | O =>
          if prefix old s
          then new ++ replace_from old new (String.length old - 1) s'
          else String c (replace_from old new O s')
      end
  end.

Definition replace (old new s : string) : string := replace_from old new O s.

(** [sorted(l, key=...)]: a stable sort.  [ord x y] says that [x] may stay
    in front of [y]; an element is inserted behind every element it may not
    overtake, so elements with equal keys keep their order. *)
Section Sort.
Context {A : Type} (ord : A -> A -> bool).

Fixpoint insert (x : A) (l : list A) : list A :=
  match l with
  | [] => [x]
  | y :: l' => if ord x y then x :: l else y :: insert x l'
  end.

Fixpoint sort (l : list A) : list A :=
  match l with
  | [] => []
  | x :: l' => insert x (sort l')
  end.
End Sort.

(** [enumerate(l)] *)
Fixpoint enumerate_from {A : Type} (i : Z) (l : list A) : list (Z * A) :=
  match l with
  | [] => []
  | x :: l' => (i, x) :: enumerate_from (i + 1) l'
  end.

Definition enumerate {A : Type} (l : list A) : list (Z * A) :=
  enumerate_from 0 l.

End Py.

(** ** config.py *)

Module Config.

Record t : Type := mk {
  S3_PREFIX : string;
  DATABASE_CACHE_TTL : Z;
  MAX_CACHE_SIZE_GB : N
}.

(** The values of [config.py] when no environment variable is set. *)
Definition default : t :=
  {| S3_PREFIX := "sleeper-snapshots/";
     DATABASE_CACHE_TTL := 3600;
     MAX_CACHE_SIZE_GB := 5 |}.

(** [CURRENT_VERSION_FILE], relative to [CACHE_DIR] *)
Definition CURRENT_VERSION_FILE : string := "current_version.json".

Definition get_database_cache_path (version : string) : string :=
  "database_" ++ version ++ ".sqlite".

Definition get_manifest_cache_path (version : string) : string :=
  "manifest_" ++ version ++ ".json".

End Config.

(** ** The cache directory, the bucket and the clock *)

Module Store.

Import Py.

(** One entry of a manifest's ["files"] array.  [s3_key] is [None] when the
    entry has no usable ["s3_key"], in which case [file_info['s3_key']]
    raises. *)
Record FileEntry : Type := mkFileEntry {
  type_ : pyval;
  s3_key : option string
}.

(** What a file holds, as far as the code can tell:
    - [Unreadable]: [json.load] fails or does not give an object, and the
      file is not a database either;
    - [Json fields files]: a JSON object with its scalar members and its
      ["files"] array (empty when the member is absent);
    - [Sqlite q]: an SQLite database; [q] says whether
      [SELECT COUNT( * ) FROM WeeklyStats LIMIT 1] can be executed. *)
Inductive content : Type :=
| Unreadable
| Json (fields : list (string * pyval)) (files : list FileEntry)
| Sqlite (weekly_stats : bool).

Record File : Type := mkFile {
  st_size : N;
  st_mtime : Z;
  data : content
}.

(** The entries of [CACHE_DIR] in listing order. *)
Definition dir : Type := list (string * File).

Fixpoint lookup (name : string) (d : dir) : option File :=
  match d with
  | [] => None
  | (n, f) :: d' => if (n =? name)%string then Some f else lookup name d'
  end.

(** [path.exists()] *)
Definition exists_ (name : string) (d : dir) : bool :=
  match lookup name d with Some _ => true | None => false end.

(** [path.unlink()] on a file that exists *)
Definition unlink (name : string) (d : dir) : dir :=
  filter (fun e => negb (fst e =? name)%string) d.

(** Creating or replacing the file [name]. *)
Fixpoint write (name : string) (f : File) (d : dir) : dir :=
  match d with
  | [] => [(name, f)]
  | (n, g) :: d' =>
      if (n =? name)%string then (name, f) :: d'
      else (n, g) :: write name f d'
  end.

(** [dict.get(key)] on a loaded JSON object; [None] when the key is absent *)
Fixpoint dict_get (key : string) (fields : list (string * pyval)) : pyval :=
  match fields with
  | [] => PNone
  | (k, v) :: rest => if (k =? key)%string then v else dict_get key rest
  end.

Record S3Object : Type := mkS3Object {
  Key : string;
  LastModified : string;
  ContentLength : N;
  Body : content
}.

(** The objects of the bucket in the order S3 lists them. *)
Definition bucket : Type := list S3Object.

(** [list_objects_v2(Prefix=prefix, MaxKeys=100).get('Contents', [])] *)
Definition list_objects_v2 (prefix : string) (b : bucket) : list S3Object :=
  firstn 100 (filter (fun o => startswith prefix (Key o)) b).

Definition head_object (key : string) (b : bucket) : option S3Object :=
  find (fun o => (Key o =? key)%string) b.

(** [datetime.now(timezone.utc)]: its [timestamp()] in seconds and its
    [isoformat()]. *)
Record Clock : Type := mkClock {
  now : Z;
  now_iso : string
}.

(** [s3_client.download_file(bucket, key, dest)]: raises ([None]) when the
    object does not exist, and then leaves [dest] as it was. *)
Definition download_file (clk : Clock) (b : bucket) (key dest : string)
    (d : dir) : option dir :=
  match head_object key b with
  | Some o =>
      Some (write dest
              {| st_size := ContentLength o; st_mtime := now clk;
                 data := Body o |} d)
  | None => None
  end.

(** How [with open(path, 'w') as f: json.dump(doc, f, indent=2)] ends:
    - [Written n]: the [n] bytes of the document are on disk;
    - [OpenRaises e]: [open] raised, so nothing was touched;
    - [DumpRaises n e]: [open] truncated the file and the write raised after
      [n] bytes, a proper prefix of the document, which [json.load] rejects. *)
Inductive WriteOutcome : Type :=
| Written (nbytes : N)
| OpenRaises (e : string)
| DumpRaises (nbytes : N) (e : string).

(** The directory after the write, and the text of the exception if one was
    raised. *)
Definition write_json (io : WriteOutcome) (clk : Clock) (name : string)
    (doc : list (string * pyval)) (d : dir) : dir * option string :=
  match io with
  | Written n =>
      (write name {| st_size := n; st_mtime := now clk;
                     data := Json doc [] |} d, None)
  | OpenRaises e => (d, Some e)
  | DumpRaises n e =>
      (write name {| st_size := n; st_mtime := now clk;
                     data := Unreadable |} d, Some e)
  end.

(** [get_current_version], the same text in both managers: the ["version"]
    member of the pointer file, [None] when the file is missing or cannot be
    loaded. *)
Definition get_current_version (d : dir) : pyval :=
  match lookup Config.CURRENT_VERSION_FILE d with
  | Some f =>
      match data f with
      | Json fields _ => dict_get "version" fields
      | _ => PNone
      end
  | None => PNone
  end.

End Store.

(** ** version_manager.py *)

Module VersionManager.

Import Py Store.

(** The dictionaries built by [get_available_versions].  [total_files] and
    [total_size] are only printed by the command line and are left out. *)
Record VersionInfo : Type := mkVersionInfo {
  version : string;
  manifest_key : string;
  uploaded_at : pyval;
  database_info : option FileEntry
}.

(** [key.split('/')[-1].replace('manifest_', '').replace('.json', '')] *)
Definition version_of_key (key : string) : string :=
  replace ".json" EmptyString
    (replace "manifest_" EmptyString (last_segment key)).

Definition is_database_snapshot (e : FileEntry) : bool :=
  Py.eqb (type_ e) (PStr "database_snapshot").

Definition version_info_of (o : S3Object) : VersionInfo :=
  match Body o with
  | Json fields files =>
      {| version := version_of_key (Key o);
         manifest_key := Key o;
         uploaded_at := dict_get "timestamp" fields;
         database_info := find is_database_snapshot files |}
  | _ =>
      {| version := version_of_key (Key o);
         manifest_key := Key o;
         uploaded_at := PStr (LastModified o);
         database_info := None |}
  end.

(** [a <= b] on keys that Python can compare *)
Definition key_leb (a b : pyval) : bool :=
  match a, b with
  | PStr s, PStr t => String.leb s t
  | PBool x, PBool y => implb x y
  | _, _ => false
  end.

Definition is_str (v : pyval) : bool :=
  match v with PStr _ => true | _ => false end.

Definition is_bool (v : pyval) : bool :=
  match v with PBool _ => true | _ => false end.

(** A list of two or more keys can be sorted when every comparison the sort
    makes is defined: all keys are strings, or all are booleans.  [None]
    compares with nothing, and a string does not compare with a boolean. *)
Definition sortable (keys : list pyval) : bool :=
  (length keys <=? 1)%nat || forallb is_str keys || forallb is_bool keys.

Definition newer_first (x y : VersionInfo) : bool :=
  key_leb (uploaded_at y) (uploaded_at x).

(** [sorted(l, key=lambda x: x['uploaded_at'], reverse=True)]; [None] is the
    [TypeError] of an undefined comparison. *)
Definition sort_by_upload_desc (l : list VersionInfo)
    : option (list VersionInfo) :=
  if sortable (map uploaded_at l) then Some (Py.sort newer_first l) else None.

Definition manifests_prefix (cfg : Config.t) : string :=
  Config.S3_PREFIX cfg ++ "manifests/".

Definition get_available_versions (cfg : Config.t) (b : bucket)
    : list VersionInfo :=
  let versions :=
    map version_info_of
        (filter (fun o => endswith ".json" (Key o))
                (list_objects_v2 (manifests_prefix cfg) b)) in
  match sort_by_upload_desc versions with
  | Some l => l
  | None => []
  end.

(** [_invalidate_cache]: both cached files of the version are unlinked when
    they exist. *)
Definition _invalidate_cache (version : string) (d : dir) : dir :=
  let db_path := Config.get_database_cache_path version in
  let manifest_path := Config.get_manifest_cache_path version in
  let d1 := if exists_ db_path d then unlink db_path d else d in
  if exists_ manifest_path d1 then unlink manifest_path d1 else d1.

Definition version_data (clk : Clock) (version : string)
    (current_version : pyval) (force : bool) : list (string * pyval) :=
  [ ("version", PStr version);
    ("previous_version", current_version);
    ("promoted_at", PStr (now_iso clk));
    ("promoted_by", PStr "version_manager");
    ("force_promotion", PBool force) ].

(** [promote_version]: the returned pair [(success, message)] and the cache
    directory afterwards. *)
Definition promote_version (cfg : Config.t) (b : bucket) (clk : Clock)
    (io : WriteOutcome) (version : string) (force : bool) (d : dir)
    : (bool * string) * dir :=
  let available_versions := get_available_versions cfg b in
  let version_exists :=
    existsb (fun v => (VersionManager.version v =? version)%string)
            available_versions in
  if negb version_exists && negb force then
    ((false, "Version " ++ version ++ " not found in available versions"), d)
  else
    let current_version := get_current_version d in
    match write_json io clk Config.CURRENT_VERSION_FILE
            (version_data clk version current_version force) d with
    | (d1, Some e) => ((false, "Error promoting version: " ++ e), d1)
    | (d1, None) =>
        let d2 :=
          if truthy current_version
             && negb (Py.eqb current_version (PStr version))
          then _invalidate_cache (str current_version) d1
          else d1 in
        ((true, "Version " ++ version ++ " promoted successfully"), d2)
    end.

(** The versions [cleanup_old_versions] selects: those of the ranking at an
    index [i >= keep_count] that are not the current version. *)
Definition versions_to_remove (current_version : pyval) (keep_count : Z)
    (sorted_versions : list VersionInfo) : list string :=
  map (fun p => version (snd p))
      (filter (fun p =>
                 negb (Py.eqb (PStr (version (snd p))) current_version)
                 && (keep_count <=? fst p))
              (enumerate sorted_versions)).

(** [cleanup_old_versions]: the returned pair [(cleaned_count,
    removed_versions)] and the cache directory afterwards. *)
Definition cleanup_old_versions (cfg : Config.t) (b : bucket)
    (keep_count : Z) (d : dir) : (Z * list string) * dir :=
  let available_versions := get_available_versions cfg b in
  let current_version := get_current_version d in
  match sort_by_upload_desc available_versions with
  | None => ((0, []), d)
  | Some sorted_versions =>
      let removed_versions :=
        versions_to_remove current_version keep_count sorted_versions in
      ((Z.of_nat (length removed_versions), removed_versions),
       fold_left (fun acc v => _invalidate_cache v acc) removed_versions d)
  end.

(** The text of the [ClientError] that [head_object] raises for a key the
    bucket does not hold. *)
Definition head_object_not_found : string :=
  "An error occurred (404) when calling the HeadObject operation: Not Found".

(** [validate_version]: the returned pair [(is_valid, message)].  An entry
    without ["s3_key"] makes [version_info['database_info']['s3_key']] raise
    [KeyError('s3_key')], which the outer handler reports. *)
Definition validate_version (cfg : Config.t) (b : bucket) (version : string)
    : bool * string :=
  let available_versions := get_available_versions cfg b in
  match find (fun v => (VersionManager.version v =? version)%string)
             available_versions with
  | None => (false, "Version " ++ version ++ " not found")
  | Some version_info =>
      match database_info version_info with
      | Some info =>
          match s3_key info with
          | None => (false, "Error validating version: 's3_key'")
          | Some db_key =>
              match head_object db_key b with
              | Some _ =>
                  (true, "Version " ++ version ++ " is valid and accessible")
              | None =>
                  (false, "Database file for version " ++ version
                          ++ " not accessible: " ++ head_object_not_found)
              end
          end
      | None => (false, "No database file found for version " ++ version)
      end
  end.

(** The dictionary returned by [get_version_status]. *)
Record VersionStatus : Type := mkVersionStatus {
  current_version : pyval;
  current_version_info : option VersionInfo;
  available_versions : list VersionInfo;
  total_versions : nat;
  last_updated : string
}.

Definition get_version_status (cfg : Config.t) (b : bucket) (clk : Clock)
    (d : dir) : VersionStatus :=
  let current := get_current_version d in
  let available := get_available_versions cfg b in
  let info :=
    if truthy current
    then find (fun v => Py.eqb (PStr (VersionManager.version v)) current)
              available
    else None in
  {| current_version := current;
     current_version_info := info;
     available_versions := available;
     total_versions := length available;
     last_updated := now_iso clk |}.

End VersionManager.

(** ** database_manager.py *)

Module DatabaseManager.

Import Py Store.

(** A connection object made by [sqlite3.connect]. *)
Definition handle : Type := nat.

(** What the manager does to the outside, newest event first:
    - [EvDownload key dest]: [download_file] fetched [key] into [dest];
    - [EvVerify path ok]: [_verify_database_integrity] probed [path];
    - [EvOpen h path]: [sqlite3.connect] made [self._db_connection];
    - [EvClose h]: [self._db_connection.close()]. *)
Inductive event : Type :=
| EvDownload (key dest : string)
| EvVerify (path : string) (ok : bool)
| EvOpen (h : handle) (path : string)
| EvClose (h : handle).

Record World : Type := mkWorld {
  cache : dir;
  events : list event
}.

(** The attributes set by [__init__]. *)
Record t : Type := mk {
  _db_connection : option handle;
  _current_version : pyval;
  _cache_timestamp : option Z
}.

Definition init : t :=
  {| _db_connection := None; _current_version := PNone;
     _cache_timestamp := None |}.

Definition log (e : event) (w : World) : World :=
  {| cache := cache w; events := e :: events w |}.

(** [set_current_version]: the pointer is written in place, like in
    [VersionManager.promote_version]. *)
Definition set_current_version (clk : Clock) (io : WriteOutcome)
    (version : string) (d : dir) : bool * dir :=
  let version_data :=
    [ ("version", PStr version);
      ("updated_at", PStr (now_iso clk));
      ("updated_by", PStr "api") ] in
  match write_json io clk Config.CURRENT_VERSION_FILE version_data d with
  | (d1, None) => (true, d1)
  | (d1, Some _) => (false, d1)
  end.

(** [_verify_database_integrity]: the probe opens the file, runs the query
    and closes its own connection; it succeeds on a database whose
    [WeeklyStats] table answers.  Both callers pass a file that exists. *)
Definition _verify_database_integrity (db_path : string) (w : World)
    : bool * World :=
  let ok :=
    match lookup db_path (cache w) with
    | Some f =>
        match data f with
        | Sqlite weekly_stats => weekly_stats
        | _ => false
        end
    | None => false
    end in
  (ok, log (EvVerify db_path ok) w).

Definition is_cache_valid (cfg : Config.t) (clk : Clock) (version : pyval)
    (w : World) : bool * World :=
  let db_path := Config.get_database_cache_path (str version) in
  match lookup db_path (cache w) with
  | None => (false, w)
  | Some f =>
      let cache_age := now clk - st_mtime f in
      if Config.DATABASE_CACHE_TTL cfg <? cache_age then (false, w)
      else _verify_database_integrity db_path w
  end.

Definition is_database_snapshot (e : FileEntry) : bool :=
  Py.eqb (type_ e) (PStr "database_snapshot").

Definition manifest_key_of (cfg : Config.t) (version : pyval) : string :=
  Config.S3_PREFIX cfg ++ "manifests/manifest_" ++ str version ++ ".json".

(** [download_database_from_s3]: every [return False], and every exception
    caught by the handler, gives [false]. *)
Definition download_database_from_s3 (cfg : Config.t) (b : bucket)
    (clk : Clock) (version : pyval) (w : World) : bool * World :=
  let manifest_key := manifest_key_of cfg version in
  let manifest_path := Config.get_manifest_cache_path (str version) in
  match download_file clk b manifest_key manifest_path (cache w) with
  | None => (false, w)
  | Some d1 =>
      let w1 := {| cache := d1;
                   events := EvDownload manifest_key manifest_path
                             :: events w |} in
      match option_map data (lookup manifest_path d1) with
      | Some (Json _ files) =>
          match find is_database_snapshot files with
          | None => (false, w1)
          | Some db_file_info =>
              match s3_key db_file_info with
              | None => (false, w1)
              | Some key =>
                  let db_path :=
                    Config.get_database_cache_path (str version) in
                  match download_file clk b key db_path d1 with
                  | None => (false, w1)
                  | Some d2 =>
                      let w2 := {| cache := d2;
                                   events := EvDownload key db_path
                                             :: events w1 |} in
                      let '(ok, w3) := _verify_database_integrity db_path w2 in
                      if ok then (true, w3)
                      else (false, {| cache := unlink db_path (cache w3);
                                      events := events w3 |})
                  end
              end
          end
      | _ => (false, w1)
      end
  end.

(** A handle no earlier event mentions. *)
Definition fresh_handle (w : World) : handle := length (events w).

(** [get_database_connection]: the connection returned ([None] on failure),
    the manager's attributes and the world afterwards. *)
Definition get_database_connection (cfg : Config.t) (b : bucket)
    (clk : Clock) (version : pyval) (m : t) (w : World)
    : option handle * t * World :=
  let version :=
    match version with
    | PNone => get_current_version (cache w)
    | _ => version
    end in
  if negb (truthy version) then (None, m, w)
  else
    (* the condition of the [if], with Python's short-circuit [or] *)
    let '(update, w0) :=
      if negb (Py.eqb (_current_version m) version) then (true, w)
      else
        let '(valid, w') := is_cache_valid cfg clk version w in
        if negb valid then (true, w')
        else (match _db_connection m with None => true | Some _ => false end,
              w') in
    if update then
      let '(valid, w1) := is_cache_valid cfg clk version w0 in
      let '(ok, w2) :=
        if negb valid then download_database_from_s3 cfg b clk version w1
        else (true, w1) in
      if negb ok then (None, m, w2)
      else
        let w3 :=
          match _db_connection m with
          | Some h => log (EvClose h) w2
          | None => w2
          end in
        let db_path := Config.get_database_cache_path (str version) in
        let h' := fresh_handle w3 in
        let w4 := log (EvOpen h' db_path) w3 in
        (Some h',
         {| _db_connection := Some h'; _current_version := version;
            _cache_timestamp := Some (now clk) |},
         w4)
    else (_db_connection m, m, w0).

(** [close] *)
Definition close (m : t) (w : World) : t * World :=
  match _db_connection m with
  | Some h =>
      ({| _db_connection := None; _current_version := _current_version m;
          _cache_timestamp := _cache_timestamp m |},
       log (EvClose h) w)
  | None => (m, w)
  end.

(** [cache_dir.glob("database_*.sqlite")] *)
Definition is_database_file (name : string) : bool :=
  startswith "database_" name && endswith ".sqlite" name
  && (16 <=? String.length name)%nat.

Definition glob_databases (d : dir) : dir :=
  filter (fun e => is_database_file (fst e)) d.

(** [sum(f.stat().st_size for f in cache_dir.glob("database_*.sqlite"))] *)
Definition total_size (d : dir) : N :=
  fold_right N.add 0%N (map (fun e => st_size (snd e)) (glob_databases d)).

Definition max_size_bytes (cfg : Config.t) : N :=
  (Config.MAX_CACHE_SIZE_GB cfg * 1024 * 1024 * 1024)%N.

Definition older_first (x y : string * File) : bool :=
  st_mtime (snd x) <=? st_mtime (snd y).

(** The [for db_file in db_files] loop: every file but the protected one is
    unlinked, the size is summed again over a fresh listing, and the loop
    breaks once it is within the limit.  A listed file exists when it is
    unlinked, the directory having one entry per name. *)
Fixpoint remove_oldest (max_size_bytes : N) (protected : string)
    (db_files : list string) (d : dir) : dir :=
  match db_files with
  | [] => d
  | name :: rest =>
      if (name =? protected)%string
      then remove_oldest max_size_bytes protected rest d
      else
        let d' := unlink name d in
        if (total_size d' <=? max_size_bytes)%N then d'
        else remove_oldest max_size_bytes protected rest d'
  end.

Definition protected_name (current_version : pyval) : string :=
  "database_" ++ str current_version ++ ".sqlite".

Definition cleanup_old_cache (cfg : Config.t) (d : dir) : dir :=
  let current_version := get_current_version d in
  let db_files := glob_databases d in
  if (max_size_bytes cfg <? total_size d)%N then
    let db_files := Py.sort older_first db_files in
    remove_oldest (max_size_bytes cfg) (protected_name current_version)
                  (map fst db_files) d
  else d.

(** [get_available_versions] of the database manager: the version names
    only, [sorted(versions, reverse=True)]. *)
Definition get_available_versions (cfg : Config.t) (b : bucket)
    : list string :=
  let versions :=
    map (fun o => VersionManager.version_of_key (Key o))
        (filter (fun o => endswith ".json" (Key o))
                (list_objects_v2 (Config.S3_PREFIX cfg ++ "manifests/") b)) in
  Py.sort (fun x y => String.leb y x) versions.

(** The values bound to the [?] placeholders of a query. *)
Inductive SqlValue : Type :=
| SqlText (s : string)
| SqlInt (z : Z).

(** [models.WeeklyStatsQuery] *)
Record WeeklyStatsQuery : Type := mkWeeklyStatsQuery {
  league_id : option string;
  season : option string;
  week : option Z;
  roster_code : option Z;
  is_playoff : option bool;
  limit : Z;
  offset : Z
}.

(** [if query.league_id:] holds for a string that is not empty. *)
Definition given (o : option string) : option string :=
  match o with
  | Some s => if (s =? EmptyString)%string then None else Some s
  | None => None
  end.

(** [where_conditions] once the five [if] statements of [get_weekly_stats]
    have run. *)
Definition where_conditions (query : WeeklyStatsQuery) : list string :=
  ((match given (league_id query) with
    | Some _ => ["LeagueID = ?"] | None => [] end)
   ++ (match given (season query) with
       | Some _ => ["Season = ?"] | None => [] end)
   ++ (match week query with
       | Some _ => ["Week = ?"] | None => [] end)
   ++ (match roster_code query with
       | Some _ => ["RosterCode = ?"] | None => [] end)
   ++ (match is_playoff query with
       | Some _ => ["IsPlayoff = ?"] | None => [] end))%list.

(** [params] once the five [if] statements have run. *)
Definition params (query : WeeklyStatsQuery) : list SqlValue :=
  ((match given (league_id query) with
    | Some s => [SqlText s] | None => [] end)
   ++ (match given (season query) with
       | Some s => [SqlText s] | None => [] end)
   ++ (match week query with
       | Some z => [SqlInt z] | None => [] end)
   ++ (match roster_code query with
       | Some z => [SqlInt z] | None => [] end)
   ++ (match is_playoff query with
       | Some p => [SqlInt (if p then 1 else 0)] | None => [] end))%list.

(** ["WHERE " + " AND ".join(where_conditions) if where_conditions else ""] *)
Definition where_clause (query : WeeklyStatsQuery) : string :=
  match where_conditions query with
  | [] => EmptyString
  | conds => "WHERE " ++ String.concat " AND " conds
  end.

Definition count_query (query : WeeklyStatsQuery) : string :=
  "SELECT COUNT(" ++ "*" ++ ") as total FROM WeeklyStats "
  ++ where_clause query.

Definition newline : string := String (ascii_of_nat 10) EmptyString.

(** The triple-quoted text of [data_query], line by line. *)
Definition data_query (query : WeeklyStatsQuery) : string :=
  newline
  ++ "                SELECT * FROM WeeklyStats " ++ where_clause query
  ++ newline
  ++ "                ORDER BY Season DESC, Week DESC, Points DESC"
  ++ newline
  ++ "                LIMIT ? OFFSET ?" ++ newline
  ++ "            ".

(** [params + [query.limit, query.offset]] *)
Definition data_params (query : WeeklyStatsQuery) : list SqlValue :=
  (params query ++ [SqlInt (limit query); SqlInt (offset query)])%list.

End DatabaseManager.

(** ** main.py *)

Module Main.

Import Py Store.

Definition API_VERSION : string := "v1".

(** What an endpoint gives back: the body it returns, or the
    [HTTPException] it raises. *)
Inductive Response (A : Type) : Type :=
| Returned (body : A)
| HTTPException (status_code : Z) (detail : string).

Arguments Returned {A} body.
Arguments HTTPException {A} status_code detail.

(** [models.HealthCheckResponse] *)
Record HealthCheckResponse : Type := mkHealthCheckResponse {
  status : string;
  version : string;
  database_connected : bool;
  cache_status : string;
  timestamp : string
}.

(** [health_check]: the response, the manager and the world afterwards.
    The endpoint reads the time three times: [clk] inside
    [get_database_connection], [clk1] inside the later [is_cache_valid], and
    [clk2] for the [timestamp] of the response. *)
Definition health_check (cfg : Config.t) (b : bucket)
    (clk clk1 clk2 : Clock)
    (db : DatabaseManager.t) (w : DatabaseManager.World)
    : HealthCheckResponse * DatabaseManager.t * DatabaseManager.World :=
  let '(conn, db1, w1) :=
    DatabaseManager.get_database_connection cfg b clk PNone db w in
  let connected := match conn with Some _ => true | None => false end in
  let current_version := get_current_version (DatabaseManager.cache w1) in
  let '(active, w2) :=
    if truthy current_version
    then DatabaseManager.is_cache_valid cfg clk1 current_version w1
    else (false, w1) in
  ({| status := if connected then "healthy" else "unhealthy";
      version := API_VERSION;
      database_connected := connected;
      cache_status := if active then "active" else "inactive";
      timestamp := now_iso clk2 |},
   db1, w2).

(** [models.VersionInfo] *)
Record VersionInfo : Type := mkVersionInfo {
  vi_version : string;
  s3_key : string;
  manifest_key : string;
  uploaded_at : string;
  sha256 : string;
  size : Z;
  is_active : bool
}.

(** The [/v1/version] endpoint.  [current_version not in available_versions]
    compares with [==], so only a string can be found in the list. *)
Definition get_current_version (cfg : Config.t) (b : bucket) (clk : Clock)
    (d : dir) : Response VersionInfo :=
  let current_version := Store.get_current_version d in
  if negb (truthy current_version)
  then HTTPException 404 "No active version found"
  else
    let available_versions :=
      DatabaseManager.get_available_versions cfg b in
    if negb (existsb (fun v => Py.eqb current_version (PStr v))
                     available_versions)
    then HTTPException 404 "Current version not found in S3"
    else
      Returned
        {| vi_version := str current_version;
           s3_key := "snapshots/database_" ++ str current_version
                     ++ ".sqlite";
           manifest_key := "manifests/manifest_" ++ str current_version
                           ++ ".json";
           uploaded_at := now_iso clk;
           sha256 := EmptyString;
           size := 0;
           is_active := true |}.

(** The [/v1/versions] endpoint. *)
Definition list_available_versions (cfg : Config.t) (b : bucket)
    : Response (list string) :=
  Returned (DatabaseManager.get_available_versions cfg b).

(** [lifespan] up to its [yield]: a new manager, then the size-bounded
    cleanup of the cache directory. *)
Definition lifespan_startup (cfg : Config.t) (w : DatabaseManager.World)
    : DatabaseManager.t * DatabaseManager.World :=
  (DatabaseManager.init,
   {| DatabaseManager.cache :=
        DatabaseManager.cleanup_old_cache cfg (DatabaseManager.cache w);
      DatabaseManager.events := DatabaseManager.events w |}).

(** [lifespan] after its [yield]. *)
Definition lifespan_shutdown (db : DatabaseManager.t)
    (w : DatabaseManager.World)
    : DatabaseManager.t * DatabaseManager.World :=
  DatabaseManager.close db w.

End Main.

(** ** Observations used to state the properties *)

Module Observe.

Import Py Store.

(** A member of the record stored in the pointer file, [None] when the file
    is missing or cannot be loaded. *)
Definition pointer_member (key : string) (d : dir) : pyval :=
  match lookup Config.CURRENT_VERSION_FILE d with
  | Some f =>
      match data f with
      | Json fields _ => dict_get key fields
      | _ => PNone
      end
  | None => PNone
  end.

(** The handles that are open after a log of events (newest first). *)
Fixpoint live (evs : list DatabaseManager.event)
    : list DatabaseManager.handle :=
  match evs with
  | [] => []
  | DatabaseManager.EvOpen h _ :: rest => h :: live rest
  | DatabaseManager.EvClose h :: rest =>
      filter (fun k => negb (Nat.eqb k h)) (live rest)
  | _ :: rest => live rest
  end.

(** Every earlier moment of a log is one of its suffixes. *)
Inductive suffix {A : Type} : list A -> list A -> Prop :=
| suffix_refl : forall l, suffix l l
| suffix_cons : forall x l l', suffix l l' -> suffix l (x :: l').

(** Whether the catalog lists the version: the test [promote_version] makes. *)
Definition in_catalog (cfg : Config.t) (b : bucket) (V : string) : bool :=
  existsb (fun v => (VersionManager.version v =? V)%string)
          (VersionManager.get_available_versions cfg b).

(** The pointer file a completed promotion writes. *)
Definition pointer_file (clk : Clock) (n : N) (V : string) (previous : pyval)
    (force : bool) : File :=
  {| st_size := n; st_mtime := now clk;
     data := Json (VersionManager.version_data clk V previous force) [] |}.

(** The order a boolean test induces on neighbours of a sorted list. *)
Definition in_order {A : Type} (ord : A -> A -> bool) (x y : A) : Prop :=
  ord x y = true.

(** [x] was uploaded no earlier than [y]. *)
Definition newer_or_equal (x y : VersionManager.VersionInfo) : Prop :=
  VersionManager.key_leb (VersionManager.uploaded_at y)
                         (VersionManager.uploaded_at x) = true.

(** [x] was modified no later than [y]. *)
Definition older_or_equal (x y : string * File) : Prop :=
  st_mtime (snd x) <= st_mtime (snd y).

(** [_invalidate_cache] run for each version of a list in turn. *)
Definition invalidate_all (vs : list string) (d : dir) : dir :=
  fold_left (fun acc v => VersionManager._invalidate_cache v acc) vs d.

(** The listed files unlinked one after the other. *)
Definition unlink_all (names : list string) (d : dir) : dir :=
  fold_left (fun acc n => unlink n acc) names d.

(** The files the size-bounded cleanup may delete, in the order it visits
    them. *)
Definition candidates (keep : string) (names : list string) : list string :=
  filter (fun n => negb (n =? keep)%string) names.

(** Events that neither open nor close a connection. *)
Definition is_probe (e : DatabaseManager.event) : bool :=
  match e with
  | DatabaseManager.EvDownload _ _ | DatabaseManager.EvVerify _ _ => true
  | _ => false
  end.

(** [quiet evs evs']: [evs'] continues [evs] with probes only. *)
Inductive quiet : list DatabaseManager.event -> list DatabaseManager.event
                  -> Prop :=
| quiet_refl : forall evs, quiet evs evs
| quiet_step : forall e evs evs',
    is_probe e = true -> quiet evs evs' -> quiet evs (e :: evs').

(** At every moment of the log at most one connection was open. *)
Definition at_most_one_open (evs : list DatabaseManager.event) : Prop :=
  forall past, suffix past evs -> (length (live past) <= 1)%nat.

(** The open connections are exactly the one the manager holds. *)
Definition holds_only (m : DatabaseManager.t) (w : DatabaseManager.World)
    : Prop :=
  live (DatabaseManager.events w)
  = match DatabaseManager._db_connection m with
    | Some h => [h]
    | None => []
    end.

(** The version [get_database_connection] works on. *)
Definition resolve (version : pyval) (d : dir) : pyval :=
  match version with
  | PNone => get_current_version d
  | _ => version
  end.

(** The states a manager goes through: created with no connection, then any
    sequence of [get_database_connection] and [close] calls, with any bucket
    and clock, while other processes change the cache directory. *)
Inductive reachable : DatabaseManager.t -> DatabaseManager.World -> Prop :=
| reach_init : forall d,
    reachable DatabaseManager.init
              {| DatabaseManager.cache := d; DatabaseManager.events := [] |}
| reach_acquire : forall cfg b clk version m w,
    reachable m w ->
    reachable
      (snd (fst (DatabaseManager.get_database_connection
                   cfg b clk version m w)))
      (snd (DatabaseManager.get_database_connection cfg b clk version m w))
| reach_close : forall m w,
    reachable m w ->
    reachable (fst (DatabaseManager.close m w))
              (snd (DatabaseManager.close m w))
| reach_directory : forall m w d,
    reachable m w ->
    reachable m {| DatabaseManager.cache := d;
                   DatabaseManager.events := DatabaseManager.events w |}.

(** The [close()] call [get_database_connection] makes before it connects. *)
Definition closing (m : DatabaseManager.t) : list DatabaseManager.event :=
  match DatabaseManager._db_connection m with
  | Some h => [DatabaseManager.EvClose h]
  | None => []
  end.

(** The body of the [if] of [get_database_connection], where the cache is
    brought up to date and the connection replaced. *)
Definition refresh (cfg : Config.t) (b : bucket) (clk : Clock) (v : pyval)
    (m : DatabaseManager.t) (w0 : DatabaseManager.World)
    : option DatabaseManager.handle * DatabaseManager.t
      * DatabaseManager.World :=
  let '(valid, w1) := DatabaseManager.is_cache_valid cfg clk v w0 in
  let '(ok, w2) :=
    if negb valid
    then DatabaseManager.download_database_from_s3 cfg b clk v w1
    else (true, w1) in
  if negb ok then (None, m, w2)
  else
    let w3 :=
      match DatabaseManager._db_connection m with
      | Some h => DatabaseManager.log (DatabaseManager.EvClose h) w2
      | None => w2
      end in
    let db_path := Config.get_database_cache_path (str v) in
    let h' := DatabaseManager.fresh_handle w3 in
    let w4 := DatabaseManager.log (DatabaseManager.EvOpen h' db_path) w3 in
    (Some h',
     {| DatabaseManager._db_connection := Some h';
        DatabaseManager._current_version := v;
        DatabaseManager._cache_timestamp := Some (now clk) |},
     w4).

(** What a call that replaced the connection leaves behind: [w2] is the
    world once the file is known to be good. *)
Definition replaced (clk : Clock) (v : pyval) (m : DatabaseManager.t)
    (w2 : DatabaseManager.World)
    : option DatabaseManager.handle * DatabaseManager.t
      * DatabaseManager.World :=
  let db_path := Config.get_database_cache_path (str v) in
  let h' := length (closing m ++ DatabaseManager.events w2) in
  (Some h',
   {| DatabaseManager._db_connection := Some h';
      DatabaseManager._current_version := v;
      DatabaseManager._cache_timestamp := Some (now clk) |},
   {| DatabaseManager.cache := DatabaseManager.cache w2;
      DatabaseManager.events :=
        DatabaseManager.EvOpen h' db_path
        :: closing m ++ DatabaseManager.events w2 |}).

(** The number of occurrences of a character in a string. *)
Fixpoint count_char (c : ascii) (s : string) : nat :=
  match s with
  | EmptyString => O
  | String x s' => ((if Ascii.eqb x c then 1 else 0) + count_char c s')%nat
  end.

(** The characters of a string. *)
Definition has_char (c : ascii) (s : string) : bool :=
  existsb (Ascii.eqb c) (list_ascii_of_string s).

(** The manifests [get_available_versions] reads, in listing order. *)
Definition listed_manifests (cfg : Config.t) (b : bucket) : list S3Object :=
  filter (fun o => endswith ".json" (Key o))
         (list_objects_v2 (VersionManager.manifests_prefix cfg) b).

(** Every entry of the first directory is an entry of the second. *)
Definition only_deletes (d' d : dir) : Prop :=
  forall name f, In (name, f) d' -> In (name, f) d.

(** The bucket holds what a download of the version needs: its manifest
    under the key built from the name, a JSON object whose first
    [database_snapshot] entry names a key, and under that key a database
    that answers the probe. *)
Definition well_stored (cfg : Config.t) (b : bucket) (v : pyval) : Prop :=
  exists mo fields files info key so,
    head_object (DatabaseManager.manifest_key_of cfg v) b = Some mo /\
    Body mo = Json fields files /\
    find DatabaseManager.is_database_snapshot files = Some info /\
    s3_key info = Some key /\
    head_object key b = Some so /\
    Body so = Sqlite true.

(** A version name the cache directory can hold inside
    [database_{name}.sqlite] and [manifest_{name}.json]: it has no [/] and
    no NUL, and both file names stay within the 255 bytes of a file name. *)
Definition storable (name : string) : Prop :=
  has_char "/" name = false /\
  has_char Ascii.zero name = false /\
  (String.length (Config.get_database_cache_path name) <= 255)%nat /\
  (String.length (Config.get_manifest_cache_path name) <= 255)%nat.

End Observe.

(** ** A small installation used for the examples

    Five manifests uploaded on five consecutive days, a cache directory with
    a database per version written one second apart, and v5 current. *)

Module Sample.

Import Py Store.

Definition sample_manifest (v ts : string) : S3Object :=
  {| Key := "sleeper-snapshots/manifests/manifest_" ++ v ++ ".json";
     LastModified := "2024-01-01T00:00:00+00:00";
     ContentLength := 10%N;
     Body := Json [("timestamp", PStr ts)]
                  [ {| type_ := PStr "database_snapshot";
                       s3_key := Some ("sleeper-snapshots/db/" ++ v) |} ] |}.

Definition sample_bucket : bucket :=
  [ sample_manifest "v1" "2024-01-01"; sample_manifest "v2" "2024-01-02";
    sample_manifest "v3" "2024-01-03"; sample_manifest "v4" "2024-01-04";
    sample_manifest "v5" "2024-01-05" ].

Definition sample_database (size : N) (mtime : Z) : File :=
  {| st_size := size; st_mtime := mtime; data := Sqlite true |}.

Definition sample_pointer (v : string) : File :=
  {| st_size := 40%N; st_mtime := 5;
     data := Json [("version", PStr v)] [] |}.

Definition sample_dir : dir :=
  [ ("current_version.json", sample_pointer "v5");
    ("database_v1.sqlite", sample_database 100 1);
    ("database_v2.sqlite", sample_database 100 2);
    ("database_v3.sqlite", sample_database 100 3);
    ("database_v4.sqlite", sample_database 100 4);
    ("database_v5.sqlite", sample_database 100 5);
    ("manifest_v3.json", sample_pointer "x") ].

Definition sample_clock : Clock :=
  {| now := 10; now_iso := "1970-01-01T00:00:10+00:00" |}.

(** The same directory with version v4 current. *)
Definition sample_dir_v4 : dir :=
  write "current_version.json" (sample_pointer "v4") sample_dir.

(** Two cached databases, 6 GiB for v5 (current, and the older file) and
    1 GiB for v4. *)
Definition oversized_dir : dir :=
  [ ("current_version.json", sample_pointer "v5");
    ("database_v5.sqlite", sample_database 6442450944 1);
    ("database_v4.sqlite", sample_database 1073741824 2) ].

Definition sample_snapshot (v : string) : S3Object :=
  {| Key := "sleeper-snapshots/db/" ++ v;
     LastModified := "2024-01-01T00:00:00+00:00";
     ContentLength := 100%N;
     Body := Sqlite true |}.

(** The manifests with the snapshots of v5 and v4. *)
Definition sample_store : bucket :=
  (sample_bucket ++ [ sample_snapshot "v5"; sample_snapshot "v4" ])%list.

(** A later moment, more than an hour after the files of [sample_dir] were
    written. *)
Definition sample_clock_late : Clock :=
  {| now := 4000; now_iso := "1970-01-01T01:06:40+00:00" |}.

Definition sample_world : DatabaseManager.World :=
  {| DatabaseManager.cache := sample_dir; DatabaseManager.events := [] |}.

(** The five manifests and one more that has no timestamp. *)
Definition sample_bucket_untimed : bucket :=
  ({| Key := "sleeper-snapshots/manifests/manifest_v0.json";
      LastModified := "2023-12-31T00:00:00+00:00";
      ContentLength := 10%N;
      Body := Json [] [] |}
   :: sample_bucket)%list.

(** A manifest object that is not JSON. *)
Definition sample_bucket_unreadable : bucket :=
  [ {| Key := "sleeper-snapshots/manifests/manifest_v7.json";
       LastModified := "2024-01-07T00:00:00+00:00";
       ContentLength := 3%N;
       Body := Unreadable |} ].

(** The store with a snapshot of v4 that is not a database. *)
Definition sample_store_corrupt : bucket :=
  (sample_bucket
   ++ [ {| Key := "sleeper-snapshots/db/v4";
           LastModified := "2024-01-04T00:00:00+00:00";
           ContentLength := 12%N;
           Body := Unreadable |} ])%list.

End Sample.

(** * Properties *)

Import Py Store Observe Sample.

(** ** The string methods on typical inputs *)

Example version_of_manifest_key :
  VersionManager.version_of_key
    "sleeper-snapshots/manifests/manifest_2024w1.json" = "2024w1".
Proof. reflexivity. Qed.

Example version_of_key_repeated_parts :
  VersionManager.version_of_key "a/b/manifest_manifest_x.json.json" = "x".
Proof. reflexivity. Qed.

Example last_segment_trailing_slash : last_segment "a/b/" = EmptyString.
Proof. reflexivity. Qed.

Example glob_matches :
  map DatabaseManager.is_database_file
      [ "database_v1.sqlite"; "database_.sqlite"; "database_v1.sqlite.tmp";
        "manifest_v1.json"; "current_version.json"; "database_.sqlit" ]
  = [ true; true; false; false; false; false ].
Proof. reflexivity. Qed.

(** Equal keys keep their order, in both directions of the sort. *)
Example sort_is_stable :
  map fst (Py.sort DatabaseManager.older_first
             [ ("c", sample_database 1 7); ("a", sample_database 1 3);
               ("b", sample_database 1 7); ("d", sample_database 1 3) ])
  = [ "a"; "d"; "c"; "b" ].
Proof. reflexivity. Qed.

Example listing_is_newest_first :
  map VersionManager.version
      (VersionManager.get_available_versions Config.default sample_bucket)
  = [ "v5"; "v4"; "v3"; "v2"; "v1" ].
Proof. reflexivity. Qed.

(** ** The directory *)

Section DirFacts.

Lemma lookup_write_same name f d : lookup name (write name f d) = Some f.
Proof.
  induction d as [|[n g] d IH]; simpl.
  - now rewrite String.eqb_refl.
  - destruct (n =? name)%string eqn:E; simpl.
    + now rewrite String.eqb_refl.
    + now rewrite E.
Qed.

Lemma lookup_write_other name name' f d :
  name' <> name -> lookup name' (write name f d) = lookup name' d.
Proof.
  intros Hne. induction d as [|[n g] d IH]; simpl.
  - apply String.eqb_neq in Hne. rewrite String.eqb_sym. now rewrite Hne.
  - destruct (n =? name)%string eqn:E; simpl.
    + apply String.eqb_eq in E. subst n.
      assert (H : (name =? name')%string = false)
        by (apply String.eqb_neq; congruence).
      now rewrite H.
    + now rewrite IH.
Qed.

Lemma lookup_unlink_same name d : lookup name (unlink name d) = None.
Proof.
  unfold unlink. induction d as [|[n g] d IH]; simpl; auto.
  destruct (n =? name)%string eqn:E; simpl; auto.
  now rewrite E.
Qed.

Lemma lookup_unlink_other name name' d :
  name' <> name -> lookup name' (unlink name d) = lookup name' d.
Proof.
  intros Hne. unfold unlink.
  induction d as [|[n g] d IH]; simpl; auto.
  destruct (n =? name)%string eqn:E; simpl.
  - apply String.eqb_eq in E. subst n.
    assert (H : (name =? name')%string = false)
      by (apply String.eqb_neq; congruence).
    now rewrite H.
  - now rewrite IH.
Qed.

Lemma exists_lookup name d :
  exists_ name d = false -> lookup name d = None.
Proof. unfold exists_. now destruct (lookup name d). Qed.

End DirFacts.

(** ** File names *)

Section Names.

Lemma append_length (s t : string) :
  String.length (s ++ t) = (String.length s + String.length t)%nat.
Proof. induction s; simpl; auto. Qed.

Lemma append_cancel_r (t s1 s2 : string) : s1 ++ t = s2 ++ t -> s1 = s2.
Proof.
  revert s2. induction s1 as [|c s1 IH]; intros [|c2 s2] H; simpl in *.
  - reflexivity.
  - apply (f_equal String.length) in H. simpl in H.
    rewrite append_length in H. lia.
  - apply (f_equal String.length) in H. simpl in H.
    rewrite append_length in H. lia.
  - injection H as -> H. f_equal. now apply IH.
Qed.

Lemma database_path_inj u v :
  Config.get_database_cache_path u = Config.get_database_cache_path v ->
  u = v.
Proof.
  unfold Config.get_database_cache_path. simpl. intros H.
  injection H as H. now apply append_cancel_r in H.
Qed.

Lemma manifest_path_inj u v :
  Config.get_manifest_cache_path u = Config.get_manifest_cache_path v ->
  u = v.
Proof.
  unfold Config.get_manifest_cache_path. simpl. intros H.
  injection H as H. now apply append_cancel_r in H.
Qed.

Lemma database_path_not_manifest u v :
  Config.get_database_cache_path u <> Config.get_manifest_cache_path v.
Proof. discriminate. Qed.

Lemma database_path_not_pointer v :
  Config.get_database_cache_path v <> Config.CURRENT_VERSION_FILE.
Proof. discriminate. Qed.

Lemma manifest_path_not_pointer v :
  Config.get_manifest_cache_path v <> Config.CURRENT_VERSION_FILE.
Proof. discriminate. Qed.

End Names.

(** ** Invalidation of one version *)

Section Invalidate.

Import VersionManager.

Lemma invalidate_removes_database v d :
  lookup (Config.get_database_cache_path v) (_invalidate_cache v d) = None.
Proof.
  unfold _invalidate_cache.
  set (db := Config.get_database_cache_path v).
  set (mf := Config.get_manifest_cache_path v).
  assert (Hne : db <> mf) by apply database_path_not_manifest.
  assert (H1 : lookup db (if exists_ db d then unlink db d else d) = None).
  { destruct (exists_ db d) eqn:E.
    - apply lookup_unlink_same.
    - now apply exists_lookup. }
  destruct (exists_ mf _); auto.
  now rewrite lookup_unlink_other.
Qed.

Lemma invalidate_removes_manifest v d :
  lookup (Config.get_manifest_cache_path v) (_invalidate_cache v d) = None.
Proof.
  unfold _invalidate_cache.
  destruct (exists_ (Config.get_manifest_cache_path v) _) eqn:E.
  - apply lookup_unlink_same.
  - now apply exists_lookup.
Qed.

Lemma invalidate_other name v d :
  name <> Config.get_database_cache_path v ->
  name <> Config.get_manifest_cache_path v ->
  lookup name (_invalidate_cache v d) = lookup name d.
Proof.
  intros Hd Hm. unfold _invalidate_cache.
  destruct (exists_ (Config.get_manifest_cache_path v) _);
    destruct (exists_ (Config.get_database_cache_path v) d);
    repeat rewrite lookup_unlink_other by assumption; reflexivity.
Qed.

Lemma invalidate_keeps_pointer v d :
  lookup Config.CURRENT_VERSION_FILE (_invalidate_cache v d)
  = lookup Config.CURRENT_VERSION_FILE d.
Proof.
  apply invalidate_other; intro H; symmetry in H;
    [ now apply database_path_not_pointer in H
    | now apply manifest_path_not_pointer in H ].
Qed.

End Invalidate.

(** ** Promotion *)

Section Promotion.

Import VersionManager.

Variables (cfg : Config.t) (b : bucket) (clk : Clock).

(** The directory a promotion leaves when the pointer write completes. *)
Lemma promote_written n V force d :
  in_catalog cfg b V || force = true ->
  promote_version cfg b clk (Written n) V force d
  = ((true, "Version " ++ V ++ " promoted successfully"),
     let cur := get_current_version d in
     let d1 := write Config.CURRENT_VERSION_FILE
                     (pointer_file clk n V cur force) d in
     if truthy cur && negb (Py.eqb cur (PStr V))
     then _invalidate_cache (str cur) d1 else d1).
Proof.
  intros H. unfold promote_version, in_catalog in *.
  destruct (existsb _ _); destruct force; simpl in *;
    try discriminate; reflexivity.
Qed.

(** A promotion that reports success went through a completed write. *)
Lemma promote_success_inv io V force d :
  fst (fst (promote_version cfg b clk io V force d)) = true ->
  in_catalog cfg b V || force = true /\ exists n, io = Written n.
Proof.
  unfold promote_version, in_catalog.
  destruct (existsb _ _); destruct force; simpl;
    try discriminate; destruct io; simpl; try discriminate;
    intros _; split; eauto.
Qed.

Lemma pointer_after_promote n V force d :
  in_catalog cfg b V || force = true ->
  lookup Config.CURRENT_VERSION_FILE
         (snd (promote_version cfg b clk (Written n) V force d))
  = Some (pointer_file clk n V (get_current_version d) force).
Proof.
  intros H. rewrite promote_written by assumption. simpl snd.
  destruct (_ && _).
  - rewrite invalidate_keeps_pointer. apply lookup_write_same.
  - apply lookup_write_same.
Qed.

End Promotion.

(** C3. For a version V listed in the catalog and any earlier pointer state:
    when the pointer write completes the promotion reports success, and
    after a promotion that reports success [get_current_version] gives V
    and the stored [previous_version] is what [get_current_version] gave
    just before (Python's [None] when there was no current version). *)
Theorem promote_then_read :
  forall cfg b clk io V force d,
    in_catalog cfg b V = true ->
    let r := VersionManager.promote_version cfg b clk io V force d in
    (forall n, io = Written n -> fst (fst r) = true) /\
    (fst (fst r) = true ->
     get_current_version (snd r) = PStr V /\
     pointer_member "previous_version" (snd r) = get_current_version d).
Proof.
  intros cfg b clk io V force d Hin r. subst r.
  assert (Hok : in_catalog cfg b V || force = true) by now rewrite Hin.
  split.
  - intros n ->. now rewrite promote_written.
  - intros Hs. apply promote_success_inv in Hs as [_ [n ->]].
    unfold get_current_version at 1, pointer_member.
    rewrite pointer_after_promote by assumption. simpl. auto.
Qed.

Lemma promote_then_read_witness :
  let r := VersionManager.promote_version Config.default sample_bucket
             sample_clock (Written 200) "v3" false sample_dir in
  fst (fst r) = true /\
  get_current_version (snd r) = PStr "v3" /\
  pointer_member "previous_version" (snd r) = PStr "v5".
Proof.
  pose proof (promote_then_read Config.default sample_bucket sample_clock
                (Written 200) "v3" false sample_dir eq_refl) as [H1 H2].
  split; [ exact (H1 _ eq_refl) | exact (H2 (H1 _ eq_refl)) ].
Defined.

(** C4. For a version V the catalog does not list: without [force] the
    promotion returns [False] with the "not found in available versions"
    message whatever the disk would do, and leaves the directory (so the
    pointer) as it was.  With [force], and whether or not V is listed, a
    completed pointer write gives success, V as the current version and
    [force_promotion = True] in the stored record. *)
Theorem promote_absent_version :
  forall cfg b clk V d,
    (in_catalog cfg b V = false ->
     forall io,
       VersionManager.promote_version cfg b clk io V false d
       = ((false, "Version " ++ V ++ " not found in available versions"), d))
    /\
    (forall n,
       let r := VersionManager.promote_version cfg b clk (Written n) V true d in
       fst (fst r) = true /\
       get_current_version (snd r) = PStr V /\
       pointer_member "force_promotion" (snd r) = PBool true).
Proof.
  intros cfg b clk V d. split.
  - intros Habs io. unfold VersionManager.promote_version.
    unfold in_catalog in Habs. now rewrite Habs.
  - intros n r. subst r.
    assert (Hok : in_catalog cfg b V || true = true) by apply orb_true_r.
    split; [ now rewrite promote_written |].
    unfold get_current_version at 1, pointer_member.
    rewrite pointer_after_promote by assumption. simpl. auto.
Qed.

Lemma promote_absent_version_witness :
  VersionManager.promote_version Config.default sample_bucket sample_clock
    (Written 200) "v9" false sample_dir
  = ((false, "Version v9 not found in available versions"), sample_dir)
  /\
  (let r := VersionManager.promote_version Config.default sample_bucket
              sample_clock (Written 200) "v9" true sample_dir in
   fst (fst r) = true /\
   get_current_version (snd r) = PStr "v9" /\
   pointer_member "force_promotion" (snd r) = PBool true).
Proof.
  destruct (promote_absent_version Config.default sample_bucket
              sample_clock "v9" sample_dir) as [H1 H2].
  split; [ exact (H1 eq_refl (Written 200)) | exact (H2 200%N) ].
Defined.

(** C8, as stated, fails: promoting v3 over v5 and promoting v3 over v4 both
    return the pair [(True, "Version v3 promoted successfully")], which names
    neither v5 nor v4. *)
Lemma promote_result_hides_previous :
  let r5 := VersionManager.promote_version Config.default sample_bucket
              sample_clock (Written 200) "v3" false sample_dir in
  let r4 := VersionManager.promote_version Config.default sample_bucket
              sample_clock (Written 200) "v3" false sample_dir_v4 in
  get_current_version sample_dir = PStr "v5" /\
  get_current_version sample_dir_v4 = PStr "v4" /\
  fst r5 = (true, "Version v3 promoted successfully") /\
  fst r4 = fst r5.
Proof. repeat split. Qed.

(** C8, amended.  A promotion that reports success returns the pair
    [(True, "Version V promoted successfully")] whatever the previous version
    was; the previous version is kept in the [previous_version] member of
    the pointer record. *)
Theorem promote_result_is_message :
  forall cfg b clk io V force d,
    let r := VersionManager.promote_version cfg b clk io V force d in
    fst (fst r) = true ->
    fst r = (true, "Version " ++ V ++ " promoted successfully") /\
    pointer_member "previous_version" (snd r) = get_current_version d.
Proof.
  intros cfg b clk io V force d r Hs. subst r.
  destruct (promote_success_inv _ _ _ _ _ _ _ Hs) as [Hok [n ->]].
  split; [ now rewrite promote_written |].
  unfold pointer_member. rewrite pointer_after_promote by assumption.
  reflexivity.
Qed.

Lemma promote_result_is_message_witness :
  let r := VersionManager.promote_version Config.default sample_bucket
             sample_clock (Written 200) "v3" false sample_dir in
  fst r = (true, "Version v3 promoted successfully") /\
  pointer_member "previous_version" (snd r) = PStr "v5".
Proof.
  exact (promote_result_is_message Config.default sample_bucket sample_clock
           (Written 200) "v3" false sample_dir eq_refl).
Defined.

(** C10, as stated, fails: a current version is not always promoted again.
    After a forced promotion of v9, which has no manifest in the bucket, v9
    is current; promoting v9 once more without [force] is refused with the
    "not found in available versions" message and changes nothing. *)
Lemma promote_current_refused :
  let d9 := snd (VersionManager.promote_version Config.default sample_bucket
                   sample_clock (Written 200) "v9" true sample_dir) in
  get_current_version d9 = PStr "v9" /\
  VersionManager.promote_version Config.default sample_bucket
    sample_clock_late (Written 200) "v9" false d9
  = ((false, "Version v9 not found in available versions"), d9).
Proof. split; reflexivity. Qed.

(** C10, amended.  Promoting a version (listed, or forced) when the pointer
    write completes reports success and stores the earlier current version as
    [previous_version].  When that earlier version is V itself, or there is
    none ([None] or the empty string, both false in Python), every file of
    the directory other than the pointer is as it was: nothing is deleted.
    In every other case the cached database and manifest of the earlier
    version are gone afterwards. *)
Theorem promote_current_again :
  forall cfg b clk n V force d,
    in_catalog cfg b V || force = true ->
    let cur := get_current_version d in
    let r := VersionManager.promote_version cfg b clk (Written n) V force d in
    fst (fst r) = true /\
    pointer_member "previous_version" (snd r) = cur /\
    (cur = PStr V \/ truthy cur = false ->
     snd r = write Config.CURRENT_VERSION_FILE
                   (pointer_file clk n V cur force) d /\
     forall name, name <> Config.CURRENT_VERSION_FILE ->
                  lookup name (snd r) = lookup name d) /\
    (cur <> PStr V -> truthy cur = true ->
     lookup (Config.get_database_cache_path (str cur)) (snd r) = None /\
     lookup (Config.get_manifest_cache_path (str cur)) (snd r) = None).
Proof.
  intros cfg b clk n V force d Hok cur r. subst r.
  split; [ now rewrite promote_written |].
  split.
  { unfold pointer_member. now rewrite pointer_after_promote. }
  rewrite promote_written by assumption. simpl snd. fold cur.
  split.
  - intros Hskip.
    assert (E : truthy cur && negb (Py.eqb cur (PStr V)) = false).
    { destruct Hskip as [-> | ->]; simpl; auto.
      rewrite String.eqb_refl. apply andb_false_r. }
    rewrite E. split; auto.
    intros name Hne. now apply lookup_write_other.
  - intros Hne Ht.
    assert (E : truthy cur && negb (Py.eqb cur (PStr V)) = true).
    { rewrite Ht. simpl. destruct cur as [|x|s]; simpl; auto.
      destruct (String.eqb_spec s V); auto. congruence. }
    rewrite E. split.
    + apply invalidate_removes_database.
    + apply invalidate_removes_manifest.
Qed.

Lemma promote_current_again_witness :
  let r := VersionManager.promote_version Config.default sample_bucket
             sample_clock (Written 200) "v5" false sample_dir in
  fst (fst r) = true /\
  pointer_member "previous_version" (snd r) = PStr "v5" /\
  forall name, name <> Config.CURRENT_VERSION_FILE ->
               lookup name (snd r) = lookup name sample_dir.
Proof.
  destruct (promote_current_again Config.default sample_bucket sample_clock
              200%N "v5" false sample_dir eq_refl) as [H1 [H2 [H3 _]]].
  split; [ exact H1 |].
  split; [ exact H2 |].
  exact (proj2 (H3 (or_introl eq_refl))).
Defined.

(** C2, as stated, fails: no temporary file and no rename are involved.
    With v5 current, a promotion of v3 whose [json.dump] raises after
    [open(..., 'w')] has truncated the pointer returns [False] and leaves a
    pointer file that cannot be loaded, so that v5 is no longer reported. *)
Lemma promote_failure_loses_pointer :
  let r := VersionManager.promote_version Config.default sample_bucket
             sample_clock (DumpRaises 0 "[Errno 28] No space left on device")
             "v3" false sample_dir in
  get_current_version sample_dir = PStr "v5" /\
  fst r = (false, "Error promoting version: [Errno 28] No space left on device") /\
  option_map data (lookup Config.CURRENT_VERSION_FILE (snd r))
  = Some Unreadable /\
  get_current_version (snd r) = PNone.
Proof. repeat split. Qed.

(** C2, amended.  The pointer file is written in place.  A promotion
    refused by the catalog check, or whose [open] raises, leaves the
    directory as it was, so the stored pointer stays; a completed write
    stores the full record; a write that raises midway is reported as a
    failure, removes no cached file, and leaves a pointer that
    [get_current_version] reads as [None].  [set_current_version] of the
    database manager writes the pointer in the same way. *)
Theorem promote_writes_in_place :
  forall cfg b clk io V force d,
    let r := VersionManager.promote_version cfg b clk io V force d in
    (in_catalog cfg b V || force = false -> snd r = d) /\
    (in_catalog cfg b V || force = true ->
     match io with
     | Written n =>
         fst (fst r) = true /\
         lookup Config.CURRENT_VERSION_FILE (snd r)
         = Some (pointer_file clk n V (get_current_version d) force)
     | OpenRaises e =>
         r = ((false, "Error promoting version: " ++ e), d)
     | DumpRaises n e =>
         fst r = (false, "Error promoting version: " ++ e) /\
         snd r = write Config.CURRENT_VERSION_FILE
                       {| st_size := n; st_mtime := now clk;
                          data := Unreadable |} d /\
         get_current_version (snd r) = PNone
     end) /\
    (forall n e,
       let s := DatabaseManager.set_current_version clk (DumpRaises n e) V d in
       fst s = false /\ get_current_version (snd s) = PNone).
Proof.
  intros cfg b clk io V force d r. subst r. split; [| split].
  - unfold VersionManager.promote_version, in_catalog.
    destruct (existsb _ _); destruct force; simpl; try discriminate; auto.
  - intros Hok. destruct io as [n | e | n e].
    + split; [ now rewrite promote_written |].
      now apply pointer_after_promote.
    + unfold VersionManager.promote_version, in_catalog in *.
      destruct (existsb _ _); destruct force; simpl in *;
        try discriminate; reflexivity.
    + assert (E : VersionManager.promote_version cfg b clk (DumpRaises n e)
                    V force d
                  = ((false, "Error promoting version: " ++ e),
                     write Config.CURRENT_VERSION_FILE
                       {| st_size := n; st_mtime := now clk;
                          data := Unreadable |} d)).
      { unfold VersionManager.promote_version, in_catalog in *.
        destruct (existsb _ _); destruct force; simpl in *;
          try discriminate; reflexivity. }
      rewrite E. simpl. repeat split.
      unfold get_current_version. now rewrite lookup_write_same.
  - intros n e. simpl. split; auto.
    unfold get_current_version. now rewrite lookup_write_same.
Qed.

Lemma promote_writes_in_place_witness :
  let r := VersionManager.promote_version Config.default sample_bucket
             sample_clock (OpenRaises "[Errno 13] Permission denied") "v3" false
             sample_dir in
  r = ((false, "Error promoting version: [Errno 13] Permission denied"), sample_dir).
Proof.
  destruct (promote_writes_in_place Config.default sample_bucket sample_clock
              (OpenRaises "[Errno 13] Permission denied") "v3" false sample_dir)
    as [_ [H _]].
  exact (H eq_refl).
Defined.

(** ** Python's stable sort *)

Section SortFacts.

Context {A : Type} (ord : A -> A -> bool).

Lemma insert_perm x l : Permutation (Py.insert ord x l) (x :: l).
Proof.
  induction l as [|y l IH]; simpl; auto.
  destruct (ord x y); auto.
  rewrite IH. apply perm_swap.
Qed.

Lemma sort_perm l : Permutation (Py.sort ord l) l.
Proof.
  induction l as [|x l IH]; simpl; auto.
  rewrite insert_perm. now constructor.
Qed.

Lemma insert_hd y x l :
  HdRel (in_order ord) y l -> in_order ord y x ->
  HdRel (in_order ord) y (Py.insert ord x l).
Proof.
  intros Hl Hx. destruct l as [|z l]; simpl.
  - now constructor.
  - destruct (ord x z); constructor; auto.
    now inversion Hl.
Qed.

Lemma insert_sorted x l :
  (forall y, In y l -> ord x y = false -> ord y x = true) ->
  Sorted (in_order ord) l -> Sorted (in_order ord) (Py.insert ord x l).
Proof.
  intros Htot Hs. induction l as [|y l IH]; simpl.
  - repeat constructor.
  - destruct (ord x y) eqn:E.
    + constructor; auto.
    + inversion Hs; subst. constructor.
      * apply IH; auto. intros z Hz. apply Htot. now right.
      * apply insert_hd; auto. apply Htot; auto. now left.
Qed.

Lemma sort_sorted l :
  (forall x y, In x l -> In y l -> ord x y = false -> ord y x = true) ->
  Sorted (in_order ord) (Py.sort ord l).
Proof.
  induction l as [|x l IH]; intros Htot; simpl.
  - constructor.
  - apply insert_sorted.
    + intros y Hy. apply Htot; [ now left | right ].
      eapply Permutation_in; [ apply sort_perm | exact Hy ].
    + apply IH. intros a c Ha Hc. apply Htot; now right.
Qed.

(** Sorting a list that is already in order changes nothing. *)
Lemma sort_fixed l : Sorted (in_order ord) l -> Py.sort ord l = l.
Proof.
  induction 1 as [|x l Hs IH Hhd]; simpl; auto.
  rewrite IH. destruct Hhd as [|y l' Hxy]; simpl; auto.
  unfold in_order in Hxy. now rewrite Hxy.
Qed.

End SortFacts.

(** ** The catalog *)

Section Catalog.

Import VersionManager.

Lemma forallb_perm {B : Type} (p : B -> bool) l l' :
  Permutation l l' -> forallb p l = forallb p l'.
Proof.
  induction 1; simpl; auto.
  - now rewrite IHPermutation.
  - destruct (p x), (p y); reflexivity.
  - congruence.
Qed.

Lemma sortable_perm l l' :
  Permutation l l' -> sortable l = sortable l'.
Proof.
  intros H. unfold sortable.
  rewrite (Permutation_length H).
  now rewrite (forallb_perm is_str _ _ H), (forallb_perm is_bool _ _ H).
Qed.

Lemma key_leb_total_str l x y :
  forallb is_str (map uploaded_at l) = true ->
  In x l -> In y l -> newer_first x y = false -> newer_first y x = true.
Proof.
  intros Hall Hx Hy. rewrite forallb_forall in Hall.
  pose proof (Hall _ (in_map uploaded_at _ _ Hx)) as Sx.
  pose proof (Hall _ (in_map uploaded_at _ _ Hy)) as Sy.
  unfold newer_first.
  destruct (uploaded_at x) as [| |s]; try discriminate.
  destruct (uploaded_at y) as [| |t]; try discriminate.
  simpl. intros E. destruct (String.leb_total s t) as [H|H]; congruence.
Qed.

Lemma key_leb_total_bool l x y :
  forallb is_bool (map uploaded_at l) = true ->
  In x l -> In y l -> newer_first x y = false -> newer_first y x = true.
Proof.
  intros Hall Hx Hy. rewrite forallb_forall in Hall.
  pose proof (Hall _ (in_map uploaded_at _ _ Hx)) as Sx.
  pose proof (Hall _ (in_map uploaded_at _ _ Hy)) as Sy.
  unfold newer_first.
  destruct (uploaded_at x) as [|p|]; try discriminate.
  destruct (uploaded_at y) as [|q|]; try discriminate.
  simpl. now destruct p, q.
Qed.

Lemma sort_by_upload_desc_sorted l l' :
  sort_by_upload_desc l = Some l' ->
  Sorted newer_or_equal l' /\ Permutation l' l.
Proof.
  unfold sort_by_upload_desc.
  destruct (sortable (map uploaded_at l)) eqn:E; [| discriminate ].
  intros [= <-]. split; [| apply sort_perm ].
  unfold sortable in E.
  apply orb_true_iff in E as [E | E];
    [ apply orb_true_iff in E as [E | E] |].
  - rewrite length_map in E. apply Nat.leb_le in E.
    destruct l as [|x [|y l]]; simpl in *; try lia; repeat constructor.
  - apply (sort_sorted newer_first). intros x y.
    now apply key_leb_total_str.
  - apply (sort_sorted newer_first). intros x y.
    now apply key_leb_total_bool.
Qed.

Lemma available_versions_sorted cfg b :
  Sorted newer_or_equal (get_available_versions cfg b).
Proof.
  unfold get_available_versions.
  destruct (sort_by_upload_desc _) as [l|] eqn:E; [| constructor ].
  now apply sort_by_upload_desc_sorted in E.
Qed.

(** The second sort, in [cleanup_old_versions], returns the catalog as
    [get_available_versions] ranked it. *)
Lemma available_versions_resorted cfg b :
  sort_by_upload_desc (get_available_versions cfg b)
  = Some (get_available_versions cfg b).
Proof.
  pose proof (available_versions_sorted cfg b) as Hs.
  unfold get_available_versions in *.
  destruct (sort_by_upload_desc _) as [l|] eqn:E; [| reflexivity ].
  unfold sort_by_upload_desc in *.
  destruct (sortable (map uploaded_at (map version_info_of _))) eqn:S1;
    [| discriminate ].
  injection E as <-.
  rewrite (sortable_perm _ _
             (Permutation_map uploaded_at (sort_perm newer_first _))).
  rewrite S1. f_equal. now apply sort_fixed.
Qed.

End Catalog.

(** ** Count-bounded cleanup *)

Section Cleanup.

Import VersionManager.

Lemma py_eqb_eq v w : Py.eqb v w = true <-> v = w.
Proof.
  destruct v as [|x|s], w as [|y|t]; simpl; split;
    try discriminate; try reflexivity.
  - intros H. apply Bool.eqb_prop in H. now subst.
  - intros [= ->]. apply Bool.eqb_reflx.
  - intros H. apply String.eqb_eq in H. now subst.
  - intros [= ->]. apply String.eqb_refl.
Qed.

Lemma in_enumerate_from {B : Type} (l : list B) k i x :
  In (i, x) (enumerate_from k l)
  <-> exists n, nth_error l n = Some x /\ i = k + Z.of_nat n.
Proof.
  revert k. induction l as [|y l IH]; intros k; simpl.
  - split; [ tauto | intros [[|n] [H _]]; discriminate ].
  - split.
    + intros [[= <- <-] | H].
      * exists O. split; auto. simpl. lia.
      * apply IH in H as [n [Hn ->]]. exists (S n). split; auto. lia.
    + intros [[|n] [Hn ->]]; simpl in Hn.
      * left. injection Hn as ->. f_equal. lia.
      * right. apply IH. exists n. split; auto. lia.
Qed.

Lemma in_versions_to_remove cur keep l v :
  In v (versions_to_remove cur keep l)
  <-> PStr v <> cur /\
      exists i vi, nth_error l i = Some vi /\ version vi = v
                   /\ keep <= Z.of_nat i.
Proof.
  unfold versions_to_remove, enumerate. rewrite in_map_iff. split.
  - intros [[i vi] [Hv Hin]]. simpl in Hv. subst v.
    apply filter_In in Hin as [Hin Hc]. cbn [fst snd] in Hc.
    apply andb_true_iff in Hc as [Hne Hk].
    apply in_enumerate_from in Hin as [n [Hn ->]].
    split.
    + intros E. apply py_eqb_eq in E. rewrite E in Hne. discriminate.
    + exists n, vi. repeat split; auto. apply Z.leb_le in Hk. lia.
  - intros [Hne [n [vi [Hn [Hv Hk]]]]].
    exists (Z.of_nat n, vi). split; auto.
    apply filter_In. split.
    + apply in_enumerate_from. exists n. split; auto.
    + cbn [fst snd]. apply andb_true_iff. split.
      * rewrite Hv. destruct (Py.eqb (PStr v) cur) eqn:E; auto.
        apply py_eqb_eq in E. contradiction.
      * apply Z.leb_le. lia.
Qed.

Lemma invalidate_stays_absent name v d :
  lookup name d = None -> lookup name (_invalidate_cache v d) = None.
Proof.
  intros H.
  destruct (string_dec name (Config.get_database_cache_path v)) as [->|Hd].
  - apply invalidate_removes_database.
  - destruct (string_dec name (Config.get_manifest_cache_path v))
      as [->|Hm].
    + apply invalidate_removes_manifest.
    + now rewrite invalidate_other.
Qed.

Lemma invalidate_all_stays_absent name vs d :
  lookup name d = None -> lookup name (invalidate_all vs d) = None.
Proof.
  revert d. induction vs as [|v vs IH]; intros d H; simpl; auto.
  apply IH. now apply invalidate_stays_absent.
Qed.

Lemma invalidate_all_removes v vs d :
  In v vs ->
  lookup (Config.get_database_cache_path v) (invalidate_all vs d) = None /\
  lookup (Config.get_manifest_cache_path v) (invalidate_all vs d) = None.
Proof.
  revert d. induction vs as [|u vs IH]; intros d Hin; [ easy |].
  simpl. destruct Hin as [-> | Hin].
  - split; apply invalidate_all_stays_absent.
    + apply invalidate_removes_database.
    + apply invalidate_removes_manifest.
  - now apply IH.
Qed.

Lemma invalidate_all_keeps v vs d :
  ~ In v vs ->
  lookup (Config.get_database_cache_path v) (invalidate_all vs d)
  = lookup (Config.get_database_cache_path v) d /\
  lookup (Config.get_manifest_cache_path v) (invalidate_all vs d)
  = lookup (Config.get_manifest_cache_path v) d.
Proof.
  revert d. induction vs as [|u vs IH]; intros d Hn; [ easy |].
  simpl. destruct (IH (_invalidate_cache u d)) as [H1 H2].
  { intros H. apply Hn. now right. }
  assert (Hu : v <> u) by (intros ->; apply Hn; now left).
  rewrite H1, H2. split; apply invalidate_other.
  - intros E. now apply database_path_inj in E.
  - apply database_path_not_manifest.
  - intros E. symmetry in E. now apply database_path_not_manifest in E.
  - intros E. now apply manifest_path_inj in E.
Qed.

Lemma cleanup_old_versions_unfold cfg b keep d :
  cleanup_old_versions cfg b keep d
  = let removed := versions_to_remove (get_current_version d) keep
                     (get_available_versions cfg b) in
    ((Z.of_nat (length removed), removed), invalidate_all removed d).
Proof.
  unfold cleanup_old_versions.
  now rewrite available_versions_resorted.
Qed.

Lemma five_versions_keep_two l v5 v4 v3 v2 v1 :
  map version l = [v5; v4; v3; v2; v1] ->
  v5 <> v3 -> v5 <> v2 -> v5 <> v1 ->
  versions_to_remove (PStr v5) 2 l = [v3; v2; v1].
Proof.
  intros Hm H3 H2 H1.
  destruct l as [|a [|a4 [|a3 [|a2 [|a1 [|]]]]]]; try discriminate.
  injection Hm as <- <- E3 E2 E1.
  unfold versions_to_remove, enumerate. simpl.
  rewrite String.eqb_refl. simpl.
  rewrite E3, E2, E1.
  apply not_eq_sym in H3, H2, H1.
  apply String.eqb_neq in H3, H2, H1.
  rewrite H3, H2, H1. simpl.
  rewrite andb_false_r. simpl. now rewrite E3, E2, E1.
Qed.

End Cleanup.

(** C1, as stated, fails.  With five listed versions v5 > v4 > v3 > v2 > v1,
    v5 current and [keep_count = 2], the cleanup reports v3, v2 and v1 as
    removed, and the cached database of v3, present before, is gone. *)
Lemma cleanup_removes_third_newest :
  let r := VersionManager.cleanup_old_versions Config.default sample_bucket
             2 sample_dir in
  map VersionManager.version
      (VersionManager.get_available_versions Config.default sample_bucket)
  = ["v5"; "v4"; "v3"; "v2"; "v1"] /\
  get_current_version sample_dir = PStr "v5" /\
  fst r = (3, ["v3"; "v2"; "v1"]) /\
  exists_ "database_v3.sqlite" sample_dir = true /\
  exists_ "database_v3.sqlite" (snd r) = false /\
  map fst (snd r)
  = ["current_version.json"; "database_v4.sqlite"; "database_v5.sqlite"].
Proof. vm_compute. repeat split. Qed.

(** C1, amended.  The catalog is ranked newest upload first.  The cleanup
    removes exactly the versions found at an index [i >= keep_count] of that
    ranking that are not the current version, and returns them with their
    number; the cached database and manifest of each of them are gone
    afterwards, and those of every other version (the current one and the
    versions only found among the first [keep_count] places, the current one
    counted when it is there) are as before.  With [keep_count = 2], five
    versions v5 > v4 > v3 > v2 > v1 and v5 current, it removes v3, v2 and v1
    and retains v5 and v4. *)
Theorem cleanup_old_versions_keeps_top :
  forall cfg b keep d,
    let ranking := VersionManager.get_available_versions cfg b in
    let cur := get_current_version d in
    let r := VersionManager.cleanup_old_versions cfg b keep d in
    let removed := snd (fst r) in
    Sorted newer_or_equal ranking /\
    fst (fst r) = Z.of_nat (length removed) /\
    (forall v,
       In v removed <->
       PStr v <> cur /\
       exists i vi, nth_error ranking i = Some vi
                    /\ VersionManager.version vi = v
                    /\ keep <= Z.of_nat i) /\
    (forall v,
       In v removed ->
       lookup (Config.get_database_cache_path v) (snd r) = None /\
       lookup (Config.get_manifest_cache_path v) (snd r) = None) /\
    (forall v,
       ~ In v removed ->
       lookup (Config.get_database_cache_path v) (snd r)
       = lookup (Config.get_database_cache_path v) d /\
       lookup (Config.get_manifest_cache_path v) (snd r)
       = lookup (Config.get_manifest_cache_path v) d) /\
    (forall v5 v4 v3 v2 v1,
       map VersionManager.version ranking = [v5; v4; v3; v2; v1] ->
       NoDup [v5; v4; v3; v2; v1] ->
       cur = PStr v5 -> keep = 2 ->
       removed = [v3; v2; v1] /\
       forall v, v = v5 \/ v = v4 ->
         lookup (Config.get_database_cache_path v) (snd r)
         = lookup (Config.get_database_cache_path v) d /\
         lookup (Config.get_manifest_cache_path v) (snd r)
         = lookup (Config.get_manifest_cache_path v) d).
Proof.
  intros cfg b keep d ranking cur r removed.
  subst removed r. rewrite cleanup_old_versions_unfold. simpl.
  fold ranking cur.
  split; [ apply available_versions_sorted |].
  split; [ reflexivity |].
  split; [ intros v; apply in_versions_to_remove |].
  split; [ intros v; apply invalidate_all_removes |].
  split; [ intros v; apply invalidate_all_keeps |].
  intros v5 v4 v3 v2 v1 Hm Hnd -> ->.
  assert (E : VersionManager.versions_to_remove (PStr v5) 2 ranking
              = [v3; v2; v1]).
  { apply (five_versions_keep_two _ v5 v4 v3 v2 v1); auto.
    all: inversion Hnd as [|? ? Hn _]; subst; intros ->; apply Hn;
      simpl; auto. }
  rewrite E. split; [ reflexivity |].
  intros v Hv. apply invalidate_all_keeps.
  repeat match goal with
         | H : NoDup (_ :: _) |- _ => inversion H; clear H; subst
         end.
  simpl in *. intuition congruence.
Qed.

Lemma cleanup_old_versions_keeps_top_witness :
  let r := VersionManager.cleanup_old_versions Config.default sample_bucket
             2 sample_dir in
  snd (fst r) = ["v3"; "v2"; "v1"] /\
  forall v, v = "v5" \/ v = "v4" ->
    lookup (Config.get_database_cache_path v) (snd r)
    = lookup (Config.get_database_cache_path v) sample_dir /\
    lookup (Config.get_manifest_cache_path v) (snd r)
    = lookup (Config.get_manifest_cache_path v) sample_dir.
Proof.
  apply (proj2 (proj2 (proj2 (proj2 (proj2
           (cleanup_old_versions_keeps_top Config.default sample_bucket
              2 sample_dir)))))
           "v5" "v4" "v3" "v2" "v1").
  - reflexivity.
  - repeat constructor; simpl; intuition discriminate.
  - reflexivity.
  - reflexivity.
Defined.

(** ** Size-bounded cleanup *)

Section SizeBound.

Import DatabaseManager.

Lemma in_unlink n f name d :
  In (n, f) (unlink name d) <-> In (n, f) d /\ n <> name.
Proof.
  unfold unlink. rewrite filter_In. simpl.
  rewrite negb_true_iff, String.eqb_neq. tauto.
Qed.

Lemma in_unlink_all n f names d :
  In (n, f) (unlink_all names d) <-> In (n, f) d /\ ~ In n names.
Proof.
  revert d. induction names as [|m names IH]; intros d; simpl.
  - tauto.
  - fold (unlink_all names (unlink m d)). rewrite IH, in_unlink.
    intuition congruence.
Qed.

Lemma lookup_unlink_all name names d :
  ~ In name names -> lookup name (unlink_all names d) = lookup name d.
Proof.
  revert d. induction names as [|m names IH]; intros d Hn; simpl; auto.
  fold (unlink_all names (unlink m d)). rewrite IH.
  - apply lookup_unlink_other. intros ->. apply Hn. now left.
  - intros H. apply Hn. now right.
Qed.

Lemma in_firstn {B : Type} (x : B) n l : In x (firstn n l) -> In x l.
Proof.
  intros H. rewrite <- (firstn_skipn n l). apply in_or_app. now left.
Qed.

Lemma candidates_exclude keep names : ~ In keep (candidates keep names).
Proof.
  unfold candidates. rewrite filter_In.
  intros [_ H]. now rewrite String.eqb_refl in H.
Qed.

(** The loop deletes a prefix of the candidates, the shortest one after
    which the recomputed total is within the limit, or all of them. *)
Lemma remove_oldest_prefix B keep files d :
  (B < total_size d)%N ->
  exists k,
    (k <= length (candidates keep files))%nat /\
    remove_oldest B keep files d
    = unlink_all (firstn k (candidates keep files)) d /\
    (forall j, (j < k)%nat ->
       (B < total_size (unlink_all (firstn j (candidates keep files)) d))%N)
    /\
    ((total_size (remove_oldest B keep files d) <= B)%N
     \/ k = length (candidates keep files)).
Proof.
  revert d. induction files as [|name rest IH]; intros d Hover.
  - exists O. simpl. repeat split; auto. intros j Hj. lia.
  - simpl. destruct (name =? keep)%string eqn:E; simpl.
    + now apply IH.
    + destruct (total_size (unlink name d) <=? B)%N eqn:Hle.
      * exists 1%nat. simpl. repeat split; auto; try lia.
        -- intros j Hj. assert (j = O) by lia. now subst.
        -- left. now apply N.leb_le.
      * apply N.leb_gt in Hle.
        destruct (IH (unlink name d) Hle) as [k [Hk [Heq [Hlt Hend]]]].
        exists (S k). simpl. repeat split; auto; try lia.
        intros [|j] Hj; simpl; auto. apply Hlt. lia.
Qed.

Lemma older_first_sorted l :
  StronglySorted older_or_equal (Py.sort older_first l).
Proof.
  apply Sorted_StronglySorted.
  - intros x y z. unfold older_or_equal. lia.
  - assert (H : Sorted (fun x y => older_first x y = true)
                       (Py.sort older_first l)).
    { apply sort_sorted. intros x y _ _. unfold older_first.
      rewrite Z.leb_gt, Z.leb_le. lia. }
    induction H as [|x l' Hs IH Hhd]; constructor; auto.
    destruct Hhd; constructor. unfold older_or_equal, older_first in *.
    now apply Z.leb_le.
Qed.

End SizeBound.

(** C5, as stated, fails: the total can stay above the budget.  With the
    default budget of 5 GiB and v5 current, a 6 GiB database of v5 and a
    1 GiB database of v4 total 7 GiB; the cleanup deletes the file of v4,
    keeps the file of v5, and 6 GiB remain. *)
Lemma cleanup_old_cache_over_budget :
  let d' := DatabaseManager.cleanup_old_cache Config.default oversized_dir in
  get_current_version oversized_dir = PStr "v5" /\
  DatabaseManager.max_size_bytes Config.default = 5368709120%N /\
  DatabaseManager.total_size oversized_dir = 7516192768%N /\
  map fst d' = ["current_version.json"; "database_v5.sqlite"] /\
  DatabaseManager.total_size d' = 6442450944%N.
Proof. vm_compute. repeat split. Qed.

(** C5, amended.  When the cached databases are within the budget nothing
    is deleted.  When they exceed it, the files other than the one named
    after the current version are deleted oldest modification first, the
    total is computed again after each deletion, and the deletions stop at
    the first total within the budget; the file of the current version is
    never deleted, whatever its age.  Afterwards the total is within the
    budget, or no cached database is left except the one of the current
    version. *)
Theorem cleanup_old_cache_bound :
  forall cfg d,
    let B := DatabaseManager.max_size_bytes cfg in
    let keep :=
      DatabaseManager.protected_name (get_current_version d) in
    let d' := DatabaseManager.cleanup_old_cache cfg d in
    ((DatabaseManager.total_size d <= B)%N -> d' = d) /\
    ((B < DatabaseManager.total_size d)%N ->
     exists sorted k,
       Permutation sorted (DatabaseManager.glob_databases d) /\
       StronglySorted older_or_equal sorted /\
       let cands := candidates keep (map fst sorted) in
       (k <= length cands)%nat /\
       d' = unlink_all (firstn k cands) d /\
       (forall j, (j < k)%nat ->
          (B < DatabaseManager.total_size
                 (unlink_all (firstn j cands) d))%N) /\
       ((DatabaseManager.total_size d' <= B)%N \/ k = length cands)) /\
    lookup keep d' = lookup keep d /\
    ((DatabaseManager.total_size d' <= B)%N \/
     forall name f,
       In (name, f) (DatabaseManager.glob_databases d') -> name = keep).
Proof.
  intros cfg d B keep d'. subst d'.
  unfold DatabaseManager.cleanup_old_cache. fold B keep.
  destruct (B <? DatabaseManager.total_size d)%N eqn:Hover.
  - apply N.ltb_lt in Hover.
    set (sorted := Py.sort DatabaseManager.older_first
                           (DatabaseManager.glob_databases d)).
    destruct (remove_oldest_prefix B keep (map fst sorted) d Hover)
      as [k [Hk [Heq [Hlt Hend]]]].
    split; [ intros; lia |].
    split.
    { intros _. exists sorted, k.
      split; [ apply sort_perm |].
      split; [ apply older_first_sorted |].
      cbv zeta. repeat split; auto. }
    split.
    { rewrite Heq. apply lookup_unlink_all.
      intros H. apply in_firstn in H. now apply candidates_exclude in H. }
    destruct Hend as [Hle | Hall]; [ now left | right ].
    intros name f Hin. rewrite Heq, Hall, firstn_all in Hin.
    unfold DatabaseManager.glob_databases in Hin.
    apply filter_In in Hin as [Hin Hdb].
    apply in_unlink_all in Hin as [Hin Hnot].
    destruct (String.eqb_spec name keep) as [|Hne]; auto.
    exfalso. apply Hnot. unfold candidates. apply filter_In. split.
    + apply in_map_iff. exists (name, f). split; auto.
      eapply Permutation_in; [ symmetry; apply sort_perm |].
      apply filter_In. now split.
    + simpl. apply negb_true_iff. now apply String.eqb_neq.
  - apply N.ltb_ge in Hover.
    split; [ reflexivity |].
    split; [ intros; lia |].
    split; [ reflexivity | now left ].
Qed.

Lemma cleanup_old_cache_bound_witness :
  DatabaseManager.cleanup_old_cache Config.default sample_dir = sample_dir /\
  (let B := DatabaseManager.max_size_bytes Config.default in
   let d' := DatabaseManager.cleanup_old_cache Config.default oversized_dir in
   exists sorted k,
     Permutation sorted (DatabaseManager.glob_databases oversized_dir) /\
     StronglySorted older_or_equal sorted /\
     let cands := candidates "database_v5.sqlite" (map fst sorted) in
     (k <= length cands)%nat /\
     d' = unlink_all (firstn k cands) oversized_dir /\
     (forall j, (j < k)%nat ->
        (B < DatabaseManager.total_size
               (unlink_all (firstn j cands) oversized_dir))%N) /\
     ((DatabaseManager.total_size d' <= B)%N \/ k = length cands)).
Proof.
  split.
  - apply (proj1 (cleanup_old_cache_bound Config.default sample_dir)).
    vm_compute. discriminate.
  - apply (proj1 (proj2
             (cleanup_old_cache_bound Config.default oversized_dir))).
    vm_compute. reflexivity.
Defined.

(** ** The cached connection *)

Section Connection.

Import DatabaseManager.

Variables (cfg : Config.t) (b : bucket) (clk : Clock).

Lemma quiet_trans e1 e2 e3 : quiet e1 e2 -> quiet e2 e3 -> quiet e1 e3.
Proof. intros H12 H23. induction H23; auto. constructor; auto. Qed.

Lemma quiet_live evs evs' : quiet evs evs' -> live evs' = live evs.
Proof.
  induction 1 as [|e evs evs' He _ IH]; auto.
  destruct e; simpl in *; try discriminate; auto.
Qed.

Lemma quiet_suffix evs evs' : quiet evs evs' -> suffix evs evs'.
Proof. induction 1; now constructor. Qed.

Lemma quiet_at_most_one evs evs' :
  quiet evs evs' -> at_most_one_open evs -> at_most_one_open evs'.
Proof.
  induction 1 as [|e evs evs' He Hq IH]; auto.
  intros H0 past Hs. specialize (IH H0).
  inversion Hs; subst; [| now apply IH ].
  assert (E : live (e :: evs') = live evs')
    by (apply (quiet_live evs' (e :: evs')); constructor; auto;
        constructor).
  rewrite E. apply IH. constructor.
Qed.

Lemma verify_quiet path w :
  quiet (events w) (events (snd (_verify_database_integrity path w))) /\
  cache (snd (_verify_database_integrity path w)) = cache w.
Proof. simpl. split; auto. repeat constructor. Qed.

Lemma is_cache_valid_quiet v w :
  quiet (events w) (events (snd (is_cache_valid cfg clk v w))) /\
  cache (snd (is_cache_valid cfg clk v w)) = cache w.
Proof.
  unfold is_cache_valid.
  destruct (lookup _ (cache w)) as [f|]; [| split; auto; constructor ].
  destruct (_ <? _); [ split; auto; constructor |].
  apply verify_quiet.
Qed.

Lemma download_quiet v w :
  quiet (events w) (events (snd (download_database_from_s3 cfg b clk v w))).
Proof.
  unfold download_database_from_s3.
  destruct (download_file _ _ _ _ _) as [d1|]; [| constructor ].
  destruct (option_map data _) as [[| fields files |]|]; simpl;
    try (repeat constructor; fail).
  destruct (find _ _) as [info|]; simpl; [| repeat constructor ].
  destruct (s3_key info) as [key|]; simpl; [| repeat constructor ].
  destruct (download_file _ _ _ _ _) as [d2|]; simpl;
    [| repeat constructor ].
  destruct (lookup _ d2) as [f|]; simpl; [| repeat constructor ].
  destruct (data f) as [| |[|]]; simpl; repeat constructor.
Qed.

(** An expired or missing file makes [is_cache_valid] answer [False]
    without probing anything. *)
Lemma is_cache_valid_expired v w f :
  lookup (Config.get_database_cache_path (str v)) (cache w) = Some f ->
  Config.DATABASE_CACHE_TTL cfg < now clk - st_mtime f ->
  is_cache_valid cfg clk v w = (false, w).
Proof.
  intros Hf Hage. unfold is_cache_valid. rewrite Hf.
  apply Z.ltb_lt in Hage. now rewrite Hage.
Qed.

Lemma is_cache_valid_true v w w' :
  is_cache_valid cfg clk v w = (true, w') ->
  let db_path := Config.get_database_cache_path (str v) in
  w' = log (EvVerify db_path true) w /\
  exists f, lookup db_path (cache w) = Some f /\ data f = Sqlite true /\
            now clk - st_mtime f <= Config.DATABASE_CACHE_TTL cfg.
Proof.
  unfold is_cache_valid, _verify_database_integrity.
  destruct (lookup _ (cache w)) as [f|] eqn:Hf; [| discriminate ].
  destruct (_ <? _) eqn:Hage; [ discriminate |].
  apply Z.ltb_ge in Hage.
  destruct (data f) as [| |[|]] eqn:Hd; intros [= <-].
  split; auto. exists f. auto.
Qed.

Lemma is_cache_valid_fresh v w f :
  lookup (Config.get_database_cache_path (str v)) (cache w) = Some f ->
  data f = Sqlite true ->
  now clk - st_mtime f <= Config.DATABASE_CACHE_TTL cfg ->
  is_cache_valid cfg clk v w
  = (true, log (EvVerify (Config.get_database_cache_path (str v)) true) w).
Proof.
  intros Hf Hd Hage. unfold is_cache_valid, _verify_database_integrity.
  rewrite Hf. apply Z.ltb_ge in Hage. rewrite Hage. now rewrite Hd.
Qed.

(** A download that succeeds fetched the manifest and the database, probed
    the database, and left it on disk with the time of the download. *)
Lemma download_true v w w' :
  download_database_from_s3 cfg b clk v w = (true, w') ->
  let db_path := Config.get_database_cache_path (str v) in
  exists key f,
    events w'
    = EvVerify db_path true
      :: EvDownload key db_path
      :: EvDownload (manifest_key_of cfg v)
                    (Config.get_manifest_cache_path (str v))
      :: events w /\
    lookup db_path (cache w') = Some f /\
    data f = Sqlite true /\ st_mtime f = now clk.
Proof.
  unfold download_database_from_s3.
  destruct (download_file _ _ _ _ _) as [d1|]; [| discriminate ].
  destruct (option_map data _) as [[| fields files |]|]; try discriminate.
  destruct (find _ _) as [info|]; [| discriminate ].
  destruct (s3_key info) as [key|]; [| discriminate ].
  unfold download_file at 1.
  destruct (head_object key b) as [o|]; [| discriminate ].
  unfold _verify_database_integrity. cbn [cache events log].
  rewrite lookup_write_same. cbn [data].
  destruct (Body o) as [| |[|]] eqn:Hb; intros [= <-].
  exists key. eexists. unfold log. cbn [cache events].
  rewrite lookup_write_same. repeat split.
Qed.

End Connection.

Section Acquire.

Import DatabaseManager.

Variables (cfg : Config.t) (b : bucket) (clk : Clock).

Lemma get_database_connection_unfold version m w :
  get_database_connection cfg b clk version m w
  = let v := resolve version (cache w) in
    if negb (truthy v) then (None, m, w)
    else
      let '(update, w0) :=
        if negb (Py.eqb (_current_version m) v) then (true, w)
        else
          let '(valid, w') := is_cache_valid cfg clk v w in
          if negb valid then (true, w')
          else (match _db_connection m with
                | None => true
                | Some _ => false
                end, w') in
      if update then refresh cfg b clk v m w0
      else (_db_connection m, m, w0).
Proof. reflexivity. Qed.

(** Once the file is good the old connection is closed, then the new one
    is opened. *)
Lemma refresh_good v m w0 :
  let db_path := Config.get_database_cache_path (str v) in
  (refresh cfg b clk v m w0 = (None, m, snd (refresh cfg b clk v m w0)) /\
   quiet (events w0) (events (snd (refresh cfg b clk v m w0))))
  \/
  (exists w2 f,
     quiet (events w0) (events w2) /\
     lookup db_path (cache w2) = Some f /\ data f = Sqlite true /\
     refresh cfg b clk v m w0 = replaced clk v m w2).
Proof.
  intros db_path.
  assert (Hopen : forall w2,
    (let w3 := match _db_connection m with
               | Some h => log (EvClose h) w2
               | None => w2
               end in
     (Some (fresh_handle w3),
      {| _db_connection := Some (fresh_handle w3); _current_version := v;
         _cache_timestamp := Some (now clk) |},
      log (EvOpen (fresh_handle w3) db_path) w3))
    = replaced clk v m w2).
  { intros w2. unfold replaced, closing, fresh_handle, log.
    now destruct (_db_connection m). }
  unfold refresh.
  destruct (is_cache_valid cfg clk v w0) as [valid w1] eqn:E1.
  pose proof (is_cache_valid_quiet cfg clk v w0) as [Hq1 Hc1].
  rewrite E1 in Hq1, Hc1. simpl in Hq1, Hc1.
  destruct valid; simpl negb; cbv iota.
  - apply is_cache_valid_true in E1 as [-> [f [Hf [Hd _]]]].
    right. exists (log (EvVerify db_path true) w0), f.
    split; [| split; [| split ]]; auto.
    exact (Hopen (log (EvVerify db_path true) w0)).
  - destruct (download_database_from_s3 cfg b clk v w1) as [ok w2] eqn:E2.
    pose proof (download_quiet cfg b clk v w1) as Hq2.
    rewrite E2 in Hq2. simpl in Hq2.
    assert (Hq : quiet (events w0) (events w2))
      by (eapply quiet_trans; eauto).
    destruct ok; simpl negb; cbv iota.
    + apply download_true in E2 as [key [f [_ [Hf [Hd _]]]]].
      right. exists w2, f. split; [| split; [| split ]]; auto.
    + left. split; auto.
Qed.

(** The three ways [get_database_connection] ends: no connection and an
    untouched manager; the connection already held, after one probe of a
    valid file; or a new connection, opened after the old one was closed,
    on a file that passed the probe. *)
Lemma get_database_connection_cases version m w :
  let v := resolve version (cache w) in
  let db_path := Config.get_database_cache_path (str v) in
  let res := get_database_connection cfg b clk version m w in
  (fst res = (None, m) /\ quiet (events w) (events (snd res)))
  \/
  (exists h, _db_connection m = Some h /\ _current_version m = v /\
             res = (Some h, m, log (EvVerify db_path true) w) /\
             exists f, lookup db_path (cache w) = Some f /\
                       data f = Sqlite true)
  \/
  (exists w2 f,
     quiet (events w) (events w2) /\
     lookup db_path (cache w2) = Some f /\ data f = Sqlite true /\
     res = replaced clk v m w2).
Proof.
  intros v db_path res. subst res.
  rewrite get_database_connection_unfold. fold v. cbv zeta.
  destruct (truthy v); simpl negb; cbv iota.
  2:{ left. split; auto. constructor. }
  assert (Hrefresh : forall w0,
    quiet (events w) (events w0) ->
    (fst (refresh cfg b clk v m w0) = (None, m) /\
     quiet (events w) (events (snd (refresh cfg b clk v m w0))))
    \/
    (exists h, _db_connection m = Some h /\ _current_version m = v /\
               refresh cfg b clk v m w0
               = (Some h, m, log (EvVerify db_path true) w) /\
               exists f, lookup db_path (cache w) = Some f /\
                         data f = Sqlite true)
    \/
    (exists w2 f,
       quiet (events w) (events w2) /\
       lookup db_path (cache w2) = Some f /\ data f = Sqlite true /\
       refresh cfg b clk v m w0 = replaced clk v m w2)).
  { intros w0 Hq0.
    destruct (refresh_good v m w0) as [[E Hq] | [w2 [f [Hq [Hf [Hd E]]]]]].
    - left. rewrite E. split; auto. eapply quiet_trans; eauto.
    - right. right. exists w2, f. repeat split; auto.
      eapply quiet_trans; eauto. }
  destruct (Py.eqb (_current_version m) v) eqn:Ev; simpl negb; cbv iota.
  - apply py_eqb_eq in Ev.
    destruct (is_cache_valid cfg clk v w) as [valid w'] eqn:E0.
    pose proof (is_cache_valid_quiet cfg clk v w) as [Hq0 _].
    rewrite E0 in Hq0. simpl in Hq0.
    destruct valid; simpl negb; cbv iota.
    + destruct (_db_connection m) as [h|] eqn:Eh.
      * right. left. exists h.
        apply is_cache_valid_true in E0 as [-> [f [Hf [Hd _]]]].
        repeat split; auto. exists f. auto.
      * exact (Hrefresh w' Hq0).
    + exact (Hrefresh w' Hq0).
  - apply Hrefresh. constructor.
Qed.

End Acquire.

Section OneHandle.

Import DatabaseManager.

Lemma suffix_nil_inv {A : Type} (l : list A) : suffix l [] -> l = [].
Proof. now inversion 1. Qed.

Lemma filter_self_out h : filter (fun k => negb (Nat.eqb k h)) [h] = [].
Proof. simpl. now rewrite Nat.eqb_refl. Qed.

Lemma live_after_closing m evs :
  live evs = match _db_connection m with Some h => [h] | None => [] end ->
  live (closing m ++ evs) = [].
Proof.
  unfold closing. destruct (_db_connection m) as [h|]; simpl; auto.
  intros ->. apply filter_self_out.
Qed.

Lemma closing_at_most_one m evs :
  live evs = match _db_connection m with Some h => [h] | None => [] end ->
  at_most_one_open evs -> at_most_one_open (closing m ++ evs).
Proof.
  intros Hl H past Hs. unfold closing in *.
  destruct (_db_connection m) as [h|]; simpl in Hs; [| now apply H ].
  inversion Hs; subst; [| now apply H ].
  simpl. rewrite Hl, filter_self_out. simpl. lia.
Qed.

(** One call keeps the invariant, whatever the arguments and the
    surroundings. *)
Lemma get_database_connection_one_handle cfg b clk version m w :
  holds_only m w -> at_most_one_open (events w) ->
  let res := get_database_connection cfg b clk version m w in
  holds_only (snd (fst res)) (snd res) /\
  at_most_one_open (events (snd res)).
Proof.
  intros Hh H1 res.
  destruct (get_database_connection_cases cfg b clk version m w)
    as [[E Hq] | [[h [Eh [_ [E _]]]] | [w2 [f [Hq [_ [_ E]]]]]]];
    fold res in E; try fold res in Hq.
  - assert (Em : snd (fst res) = m) by now rewrite E.
    rewrite Em. split.
    + unfold holds_only in *. now rewrite (quiet_live _ _ Hq).
    + eapply quiet_at_most_one; eauto.
  - rewrite E. simpl. split.
    + exact Hh.
    + eapply quiet_at_most_one; [| exact H1 ].
      constructor; [ reflexivity | constructor ].
  - rewrite E. unfold replaced. cbn [fst snd events _db_connection].
    unfold holds_only in Hh. rewrite <- (quiet_live _ _ Hq) in Hh.
    pose proof (quiet_at_most_one _ _ Hq H1) as H2.
    split.
    + unfold holds_only. cbn [events _db_connection live].
      now rewrite (live_after_closing m _ Hh).
    + intros past Hs. inversion Hs; subst.
      * cbn [live]. rewrite (live_after_closing m _ Hh). simpl. lia.
      * now apply (closing_at_most_one m _ Hh H2).
Qed.

Lemma close_one_handle m w :
  holds_only m w -> at_most_one_open (events w) ->
  holds_only (fst (close m w)) (snd (close m w)) /\
  at_most_one_open (events (snd (close m w))).
Proof.
  intros Hh H1. unfold close, holds_only in *.
  destruct (_db_connection m) as [h|] eqn:Eh; simpl.
  - rewrite Hh, filter_self_out. split; auto.
    intros past Hs. inversion Hs; subst; [| now apply H1 ].
    simpl. rewrite Hh, filter_self_out. simpl. lia.
  - rewrite Eh. auto.
Qed.

End OneHandle.

(** C9. In every state a manager reaches, from its creation through any
    calls of [get_database_connection] and [close], at every moment of its
    history at most one connection is open, and the open connections are
    exactly [self._db_connection].  A call that returns another connection
    than the one held closed the held one first and opened the new one
    next.  (The connection [_verify_database_integrity] uses for its probe
    is a local of that method, never an attribute of the manager.) *)
Theorem one_open_handle :
  (forall m w,
     reachable m w ->
     at_most_one_open (DatabaseManager.events w) /\ holds_only m w) /\
  (forall cfg b clk version m w h h',
     let res :=
       DatabaseManager.get_database_connection cfg b clk version m w in
     DatabaseManager._db_connection m = Some h ->
     fst (fst res) = Some h' -> h' <> h ->
     exists path rest,
       DatabaseManager.events (snd res)
       = DatabaseManager.EvOpen h' path
         :: DatabaseManager.EvClose h :: rest /\
       suffix (DatabaseManager.events w) rest).
Proof.
  split.
  - induction 1 as [d | cfg b clk version m w _ [IH1 IH2]
                    | m w _ [IH1 IH2] | m w d _ [IH1 IH2]].
    + split; [| reflexivity ].
      intros past Hs. apply suffix_nil_inv in Hs. subst. simpl. lia.
    + destruct (get_database_connection_one_handle cfg b clk version m w
                  IH2 IH1); auto.
    + destruct (close_one_handle m w IH2 IH1); auto.
    + split; auto.
  - intros cfg b clk version m w h h' res Hm Hr Hne.
    destruct (get_database_connection_cases cfg b clk version m w)
      as [[E _] | [[h0 [Eh [_ [E _]]]] | [w2 [f [Hq [_ [_ E]]]]]]];
      fold res in E.
    + rewrite E in Hr. discriminate.
    + rewrite E in Hr. simpl in Hr. congruence.
    + rewrite E in Hr |- *. unfold replaced, closing in *.
      rewrite Hm in *. simpl in Hr |- *. injection Hr as <-.
      eexists. eexists. split; [ reflexivity |].
      now apply quiet_suffix.
Qed.

Lemma one_open_handle_witness :
  let res := DatabaseManager.get_database_connection Config.default
               sample_store sample_clock_late (PStr "v4")
               DatabaseManager.init sample_world in
  at_most_one_open (DatabaseManager.events (snd res)) /\
  holds_only (snd (fst res)) (snd res).
Proof.
  apply (proj1 one_open_handle).
  apply reach_acquire. apply reach_init.
Defined.

(** ** Expiry and reuse *)

(** C6. When the cached database of the version is older than the TTL,
    [get_database_connection] never hands out a connection on it as it
    stands: either it returns [None] and leaves the manager as it was, or it
    has, in this order, downloaded the manifest, downloaded the database,
    probed the new file successfully, closed the connection it held and
    opened the one it returns, on a file whose modification time is that of
    the call. *)
Theorem expired_cache_is_downloaded_again :
  forall cfg b clk version m w f,
    let v := resolve version (DatabaseManager.cache w) in
    let db_path := Config.get_database_cache_path (str v) in
    lookup db_path (DatabaseManager.cache w) = Some f ->
    Config.DATABASE_CACHE_TTL cfg < now clk - st_mtime f ->
    let res :=
      DatabaseManager.get_database_connection cfg b clk version m w in
    match fst (fst res) with
    | None => snd (fst res) = m
    | Some h =>
        exists key f',
          DatabaseManager.events (snd res)
          = (DatabaseManager.EvOpen h db_path
             :: closing m
             ++ [ DatabaseManager.EvVerify db_path true;
                  DatabaseManager.EvDownload key db_path;
                  DatabaseManager.EvDownload
                    (DatabaseManager.manifest_key_of cfg v)
                    (Config.get_manifest_cache_path (str v)) ]
             ++ DatabaseManager.events w)%list /\
          lookup db_path (DatabaseManager.cache (snd res)) = Some f' /\
          data f' = Sqlite true /\ st_mtime f' = now clk
    end.
Proof.
  intros cfg b clk version m w f v db_path Hf Hage res. subst res.
  rewrite get_database_connection_unfold. fold v. cbv zeta.
  destruct (truthy v); simpl negb; cbv iota; [| reflexivity ].
  assert (Hrefresh :
    match fst (fst (refresh cfg b clk v m w)) with
    | None => snd (fst (refresh cfg b clk v m w)) = m
    | Some h =>
        exists key f',
          DatabaseManager.events (snd (refresh cfg b clk v m w))
          = (DatabaseManager.EvOpen h db_path
             :: closing m
             ++ [ DatabaseManager.EvVerify db_path true;
                  DatabaseManager.EvDownload key db_path;
                  DatabaseManager.EvDownload
                    (DatabaseManager.manifest_key_of cfg v)
                    (Config.get_manifest_cache_path (str v)) ]
             ++ DatabaseManager.events w)%list /\
          lookup db_path (DatabaseManager.cache (snd (refresh cfg b clk v m w)))
          = Some f' /\
          data f' = Sqlite true /\ st_mtime f' = now clk
    end).
  { unfold refresh.
    rewrite (is_cache_valid_expired cfg clk v w f Hf Hage).
    simpl negb. cbv iota.
    destruct (DatabaseManager.download_database_from_s3 cfg b clk v w)
      as [ok w2] eqn:E.
    destruct ok; simpl negb; cbv iota; [| reflexivity ].
    apply download_true in E as [key [f' [Hev [Hf' [Hd Ht]]]]].
    cbn [fst snd]. exists key, f'.
    unfold closing, DatabaseManager.fresh_handle, DatabaseManager.log.
    destruct (DatabaseManager._db_connection m);
      cbn [DatabaseManager.events DatabaseManager.cache];
      rewrite Hev; auto. }
  destruct (Py.eqb (DatabaseManager._current_version m) v);
    simpl negb; cbv iota; [| exact Hrefresh ].
  rewrite (is_cache_valid_expired cfg clk v w f Hf Hage).
  simpl negb. cbv iota. exact Hrefresh.
Qed.

Lemma expired_cache_is_downloaded_again_witness :
  let res := DatabaseManager.get_database_connection Config.default
               sample_store sample_clock_late (PStr "v4")
               DatabaseManager.init sample_world in
  match fst (fst res) with
  | None => snd (fst res) = DatabaseManager.init
  | Some h =>
      exists key f',
        DatabaseManager.events (snd res)
        = [ DatabaseManager.EvOpen h "database_v4.sqlite";
            DatabaseManager.EvVerify "database_v4.sqlite" true;
            DatabaseManager.EvDownload key "database_v4.sqlite";
            DatabaseManager.EvDownload
              "sleeper-snapshots/manifests/manifest_v4.json"
              "manifest_v4.json" ] /\
        lookup "database_v4.sqlite" (DatabaseManager.cache (snd res))
        = Some f' /\
        data f' = Sqlite true /\ st_mtime f' = 4000
  end.
Proof.
  apply (expired_cache_is_downloaded_again Config.default sample_store
           sample_clock_late (PStr "v4") DatabaseManager.init sample_world
           (sample_database 100 4)).
  - reflexivity.
  - simpl. lia.
Defined.

Section Reuse.

Import DatabaseManager.

(** What a call that returned a connection leaves: the manager holds that
    connection for the version asked, and the cached database is one that
    passed the probe. *)
Lemma acquire_success_state cfg b clk V m w h m1 w1 :
  get_database_connection cfg b clk (PStr V) m w = (Some h, m1, w1) ->
  truthy (PStr V) = true /\
  _db_connection m1 = Some h /\
  _current_version m1 = PStr V /\
  exists f, lookup (Config.get_database_cache_path V) (cache w1) = Some f
            /\ data f = Sqlite true.
Proof.
  intros E. split.
  { rewrite get_database_connection_unfold in E. cbv zeta in E.
    change (resolve (PStr V) (cache w)) with (PStr V) in E.
    destruct (truthy (PStr V)); auto. discriminate. }
  pose proof (get_database_connection_cases cfg b clk (PStr V) m w) as H.
  cbv zeta in H. rewrite E in H.
  change (resolve (PStr V) (cache w)) with (PStr V) in H.
  change (str (PStr V)) with V in H.
  destruct H as [[H _] | [[h0 [Eh [Ev [H [f [Hf Hd]]]]]]
                         | [w2 [f [_ [Hf [Hd H]]]]]]].
  - discriminate.
  - injection H as -> -> ->. repeat split; auto. exists f. auto.
  - unfold replaced in H. injection H as -> -> ->.
    repeat split. exists f. auto.
Qed.

End Reuse.

(** C7. After [get_database_connection(V)] returned a connection, a second
    call for V, made while the cached database is still the file the first
    call left (no eviction) and is no older than the TTL (no expiry),
    returns the same connection and leaves the manager as it was; it probes
    the file once and downloads nothing, whatever the bucket holds by
    then. *)
Theorem acquire_twice_reuses :
  forall cfg b clk V m w h m1 w1 b' clk' d2,
    DatabaseManager.get_database_connection cfg b clk (PStr V) m w
    = (Some h, m1, w1) ->
    let db_path := Config.get_database_cache_path V in
    lookup db_path d2 = lookup db_path (DatabaseManager.cache w1) ->
    (forall f, lookup db_path (DatabaseManager.cache w1) = Some f ->
               now clk' - st_mtime f <= Config.DATABASE_CACHE_TTL cfg) ->
    DatabaseManager.get_database_connection cfg b' clk' (PStr V) m1
      {| DatabaseManager.cache := d2;
         DatabaseManager.events := DatabaseManager.events w1 |}
    = (Some h, m1,
       {| DatabaseManager.cache := d2;
          DatabaseManager.events :=
            DatabaseManager.EvVerify db_path true
            :: DatabaseManager.events w1 |}).
Proof.
  intros cfg b clk V m w h m1 w1 b' clk' d2 E db_path Hsame Hfresh.
  apply acquire_success_state in E as [Ht [Hc [Hv [f [Hf Hd]]]]].
  rewrite get_database_connection_unfold. cbv zeta.
  change (resolve (PStr V) _) with (PStr V).
  rewrite Ht, Hv. simpl negb. cbv iota.
  rewrite String.eqb_refl. simpl negb. cbv iota.
  rewrite (is_cache_valid_fresh cfg clk' (PStr V) _ f).
  - simpl negb. cbv iota. rewrite Hc. reflexivity.
  - simpl. fold db_path. now rewrite Hsame.
  - exact Hd.
  - now apply Hfresh.
Qed.

Lemma acquire_twice_reuses_witness :
  let first := DatabaseManager.get_database_connection Config.default
                 sample_store sample_clock_late (PStr "v4")
                 DatabaseManager.init sample_world in
  let m1 := snd (fst first) in
  let w1 := snd first in
  fst (fst first) = Some 3%nat /\
  DatabaseManager.get_database_connection Config.default [] sample_clock_late
    (PStr "v4") m1
    {| DatabaseManager.cache := DatabaseManager.cache w1;
       DatabaseManager.events := DatabaseManager.events w1 |}
  = (Some 3%nat, m1,
     {| DatabaseManager.cache := DatabaseManager.cache w1;
        DatabaseManager.events :=
          DatabaseManager.EvVerify "database_v4.sqlite" true
          :: DatabaseManager.events w1 |}).
Proof.
  split; [ reflexivity |].
  apply (acquire_twice_reuses Config.default sample_store sample_clock_late
           "v4" DatabaseManager.init sample_world).
  - reflexivity.
  - reflexivity.
  - intros f Hf. vm_compute in Hf. injection Hf as <-. simpl. lia.
Defined.

(** * Further properties of the code *)

(** ** The catalog of [version_manager.py] *)

Section CatalogListing.

Import VersionManager.

Variables (cfg : Config.t) (b : bucket).

Lemma listed_manifests_length : (length (listed_manifests cfg b) <= 100)%nat.
Proof.
  unfold listed_manifests, list_objects_v2.
  eapply Nat.le_trans; [ apply filter_length_le |].
  apply firstn_le_length.
Qed.

Lemma listed_manifests_in o :
  In o (listed_manifests cfg b) ->
  In o b /\ startswith (manifests_prefix cfg) (Key o) = true
  /\ endswith ".json" (Key o) = true.
Proof.
  unfold listed_manifests, list_objects_v2. intros H.
  apply filter_In in H as [H He]. apply in_firstn in H.
  apply filter_In in H as [H Hp]. auto.
Qed.

(** The catalog is the sorted list of the manifests read, or empty when
    their upload times cannot be compared. *)
Lemma available_versions_cases :
  let infos := map version_info_of (listed_manifests cfg b) in
  (sortable (map uploaded_at infos) = true /\
   get_available_versions cfg b = Py.sort newer_first infos)
  \/
  (sortable (map uploaded_at infos) = false /\
   get_available_versions cfg b = []).
Proof.
  intros infos. unfold get_available_versions, sort_by_upload_desc.
  fold (manifests_prefix cfg). fold (listed_manifests cfg b). fold infos.
  destruct (sortable (map uploaded_at infos)); auto.
Qed.

Lemma available_versions_in vi :
  In vi (get_available_versions cfg b) ->
  exists o, In o (listed_manifests cfg b) /\ vi = version_info_of o.
Proof.
  destruct available_versions_cases as [[_ E] | [_ E]]; rewrite E.
  - intros H. apply (Permutation_in _ (sort_perm newer_first _)) in H.
    apply in_map_iff in H as [o [Ho Hin]]. eauto.
  - intros [].
Qed.

Lemma available_versions_length :
  (length (get_available_versions cfg b) <= 100)%nat.
Proof.
  destruct available_versions_cases as [[_ E] | [_ E]]; rewrite E.
  - rewrite (Permutation_length (sort_perm _ _)), length_map.
    apply listed_manifests_length.
  - simpl. lia.
Qed.

Lemma version_of_info o : version (version_info_of o) = version_of_key (Key o).
Proof. unfold version_info_of. now destruct (Body o). Qed.

Lemma in_catalog_iff V :
  in_catalog cfg b V = true <->
  exists vi, In vi (get_available_versions cfg b) /\ version vi = V.
Proof.
  unfold in_catalog. rewrite existsb_exists.
  split; intros [vi [H1 H2]]; exists vi; split; auto.
  - now apply String.eqb_eq.
  - now apply String.eqb_eq.
Qed.

End CatalogListing.

(** X1. [VersionManager.get_available_versions] never lists more than 100
    versions; every version it lists comes from an object of the bucket
    whose key starts with the manifests prefix and ends in [.json]; and
    when the upload times can be compared, every such object among the
    first 100 is listed. *)
Theorem available_versions_listing :
  forall cfg b,
    let catalog := VersionManager.get_available_versions cfg b in
    (length catalog <= 100)%nat /\
    (forall vi,
       In vi catalog ->
       exists o,
         In o b /\
         startswith (VersionManager.manifests_prefix cfg) (Key o) = true /\
         endswith ".json" (Key o) = true /\
         vi = VersionManager.version_info_of o) /\
    (VersionManager.sortable
       (map VersionManager.uploaded_at
            (map VersionManager.version_info_of (listed_manifests cfg b)))
     = true ->
     forall o, In o (listed_manifests cfg b) ->
               In (VersionManager.version_info_of o) catalog).
Proof.
  intros cfg b catalog. subst catalog. split; [| split ].
  - apply available_versions_length.
  - intros vi Hin. apply available_versions_in in Hin as [o [Ho ->]].
    apply listed_manifests_in in Ho as [H1 [H2 H3]]. exists o. auto.
  - intros Hs o Ho.
    destruct (available_versions_cases cfg b) as [[_ E] | [E _]].
    + rewrite E. apply (Permutation_in _ (Permutation_sym (sort_perm _ _))).
      now apply in_map.
    + rewrite Hs in E. discriminate.
Qed.

Lemma available_versions_listing_witness :
  In (VersionManager.version_info_of (sample_manifest "v3" "2024-01-03"))
     (VersionManager.get_available_versions Config.default sample_bucket).
Proof.
  apply (proj2 (proj2 (available_versions_listing Config.default
                         sample_bucket))).
  - reflexivity.
  - simpl. auto.
Defined.

(** X2. When two or more manifests are read and one of them is a JSON
    object without a ["timestamp"], the sort raises and the catalog is
    empty: every promotion without [force] is refused and leaves the
    directory as it was, and every validation answers "not found". *)
Theorem missing_timestamp_empties_catalog :
  forall cfg b o,
    (2 <= length (listed_manifests cfg b))%nat ->
    In o (listed_manifests cfg b) ->
    VersionManager.uploaded_at (VersionManager.version_info_of o) = PNone ->
    VersionManager.get_available_versions cfg b = [] /\
    (forall clk io V d,
       VersionManager.promote_version cfg b clk io V false d
       = ((false, "Version " ++ V ++ " not found in available versions"),
          d)) /\
    (forall V,
       VersionManager.validate_version cfg b V
       = (false, "Version " ++ V ++ " not found")).
Proof.
  intros cfg b o Hlen Ho Hnone.
  assert (E : VersionManager.get_available_versions cfg b = []).
  { destruct (available_versions_cases cfg b) as [[Hs _] | [_ E]]; auto.
    exfalso. unfold VersionManager.sortable in Hs.
    rewrite !length_map in Hs.
    assert (Hin : In PNone
              (map VersionManager.uploaded_at
                 (map VersionManager.version_info_of
                    (listed_manifests cfg b)))).
    { rewrite <- Hnone. now apply in_map, in_map. }
    apply orb_true_iff in Hs as [Hs | Hs];
      [ apply orb_true_iff in Hs as [Hs | Hs] |].
    - apply Nat.leb_le in Hs. lia.
    - rewrite forallb_forall in Hs. now apply Hs in Hin.
    - rewrite forallb_forall in Hs. now apply Hs in Hin. }
  split; [ exact E |]. split.
  - intros clk io V d. unfold VersionManager.promote_version.
    now rewrite E.
  - intros V. unfold VersionManager.validate_version. now rewrite E.
Qed.

Lemma missing_timestamp_empties_catalog_witness :
  VersionManager.get_available_versions Config.default sample_bucket_untimed
  = [].
Proof.
  apply (missing_timestamp_empties_catalog Config.default
           sample_bucket_untimed
           (hd (sample_manifest "v0" "t") sample_bucket_untimed)).
  - vm_compute. lia.
  - vm_compute. auto.
  - reflexivity.
Defined.

(** ** Validation *)

Section Validation.

Import VersionManager.

Variables (cfg : Config.t) (b : bucket).

Lemma find_version_in V vi :
  find (fun v => (version v =? V)%string) (get_available_versions cfg b)
  = Some vi ->
  In vi (get_available_versions cfg b) /\ version vi = V.
Proof.
  intros H. apply find_some in H as [H1 H2].
  split; auto. now apply String.eqb_eq.
Qed.

Lemma find_version_none V :
  find (fun v => (version v =? V)%string) (get_available_versions cfg b)
  = None <-> in_catalog cfg b V = false.
Proof.
  unfold in_catalog. split.
  - intros H. destruct (existsb _ _) eqn:E; auto.
    apply existsb_exists in E as [vi [H1 H2]].
    now rewrite (find_none _ _ H vi H1) in H2.
  - intros H. destruct (find _ _) as [vi|] eqn:E; auto.
    apply find_some in E as [H1 H2].
    assert (Hex : existsb (fun v => (version v =? V)%string)
                    (get_available_versions cfg b) = true)
      by (apply existsb_exists; eauto).
    rewrite H in Hex. discriminate.
Qed.

End Validation.

(** X3. When [validate_version] accepts a version, the version is listed, a
    listed manifest of it names a snapshot key that the bucket holds, and a
    promotion of it without [force] whose pointer write completes
    succeeds. *)
Theorem validate_version_accepts :
  forall cfg b V,
    fst (VersionManager.validate_version cfg b V) = true ->
    VersionManager.validate_version cfg b V
    = (true, "Version " ++ V ++ " is valid and accessible") /\
    in_catalog cfg b V = true /\
    (exists vi info key o,
       In vi (VersionManager.get_available_versions cfg b) /\
       VersionManager.version vi = V /\
       VersionManager.database_info vi = Some info /\
       s3_key info = Some key /\
       head_object key b = Some o) /\
    (forall clk n d,
       fst (fst (VersionManager.promote_version cfg b clk (Written n) V
                   false d)) = true).
Proof.
  intros cfg b V. unfold VersionManager.validate_version.
  destruct (find _ _) as [vi|] eqn:Ef; [| discriminate ].
  destruct (VersionManager.database_info vi) as [info|] eqn:Ei;
    [| discriminate ].
  destruct (s3_key info) as [key|] eqn:Ek; [| discriminate ].
  destruct (head_object key b) as [o|] eqn:Eh; [| discriminate ].
  intros _. apply find_version_in in Ef as [Hin Hv].
  assert (Hc : in_catalog cfg b V = true)
    by (apply in_catalog_iff; eauto).
  split; [ reflexivity |]. split; [ exact Hc |]. split.
  - exists vi, info, key, o. auto.
  - intros clk n d. rewrite promote_written; [ reflexivity |].
    now rewrite Hc.
Qed.

Lemma validate_version_accepts_witness :
  in_catalog Config.default sample_store "v4" = true /\
  forall clk n d,
    fst (fst (VersionManager.promote_version Config.default sample_store
                clk (Written n) "v4" false d)) = true.
Proof.
  destruct (validate_version_accepts Config.default sample_store "v4"
              eq_refl) as [_ [H1 [_ H2]]].
  split; assumption.
Defined.

(** X4. [validate_version] answers "Version V not found" exactly when the
    catalog does not list V, the condition under which [promote_version]
    refuses V without [force]. *)
Theorem validate_version_not_found :
  forall cfg b V,
    VersionManager.validate_version cfg b V
    = (false, "Version " ++ V ++ " not found")
    <-> in_catalog cfg b V = false.
Proof.
  intros cfg b V. rewrite <- find_version_none.
  unfold VersionManager.validate_version.
  destruct (find _ _) as [vi|]; [| tauto ].
  split; [| discriminate ].
  destruct (VersionManager.database_info vi) as [info|].
  - destruct (s3_key info) as [key|]; [| simpl; discriminate ].
    destruct (head_object key b); simpl; discriminate.
  - simpl. discriminate.
Qed.

(** X5. A version is listed even when none of its manifests can be used: if
    every manifest read for V is unreadable, or is a JSON object without a
    [database_snapshot] entry, then V passes the catalog check of
    [promote_version], and [validate_version] rejects it with "No database
    file found". *)
Theorem listed_without_snapshot :
  forall cfg b V,
    in_catalog cfg b V = true ->
    (forall o fields files,
       In o (listed_manifests cfg b) ->
       VersionManager.version_of_key (Key o) = V ->
       Body o = Json fields files ->
       find VersionManager.is_database_snapshot files = None) ->
    VersionManager.validate_version cfg b V
    = (false, "No database file found for version " ++ V) /\
    (forall clk n d,
       fst (fst (VersionManager.promote_version cfg b clk (Written n) V
                   false d)) = true).
Proof.
  intros cfg b V Hc Hno. split.
  - unfold VersionManager.validate_version.
    destruct (find _ _) as [vi|] eqn:Ef.
    + apply find_version_in in Ef as [Hin Hv].
      apply available_versions_in in Hin as [o [Ho ->]].
      rewrite version_of_info in Hv.
      assert (E : VersionManager.database_info
                    (VersionManager.version_info_of o) = None).
      { unfold VersionManager.version_info_of.
        destruct (Body o) as [| fields files |] eqn:Eb; simpl; auto.
        eapply Hno; eauto. }
      now rewrite E.
    + apply find_version_none in Ef. rewrite Hc in Ef. discriminate.
  - intros clk n d. rewrite promote_written; [ reflexivity |].
    now rewrite Hc.
Qed.

Lemma listed_without_snapshot_witness :
  VersionManager.validate_version Config.default sample_bucket_unreadable
    "v7"
  = (false, "No database file found for version v7").
Proof.
  apply (listed_without_snapshot Config.default sample_bucket_unreadable
           "v7").
  - reflexivity.
  - intros o fields files [<- | []] _ H. discriminate.
Defined.

(** ** The listing of [database_manager.py] and the version endpoint *)

Section NameListing.

Variables (cfg : Config.t) (b : bucket).

Lemma names_perm :
  Permutation (DatabaseManager.get_available_versions cfg b)
              (map (fun o => VersionManager.version_of_key (Key o))
                   (listed_manifests cfg b)).
Proof. unfold DatabaseManager.get_available_versions. apply sort_perm. Qed.

Lemma in_names_iff V :
  In V (DatabaseManager.get_available_versions cfg b) <->
  exists o, In o (listed_manifests cfg b)
            /\ VersionManager.version_of_key (Key o) = V.
Proof.
  split.
  - intros H. apply (Permutation_in _ names_perm) in H.
    apply in_map_iff in H as [o [H1 H2]]. eauto.
  - intros [o [H1 H2]].
    apply (Permutation_in _ (Permutation_sym names_perm)).
    apply in_map_iff. eauto.
Qed.

Lemma in_catalog_in_names V :
  in_catalog cfg b V = true ->
  In V (DatabaseManager.get_available_versions cfg b).
Proof.
  intros H. apply in_catalog_iff in H as [vi [Hin Hv]].
  apply available_versions_in in Hin as [o [Ho ->]].
  rewrite version_of_info in Hv. apply in_names_iff. eauto.
Qed.

Lemma existsb_names cur :
  existsb (fun v => Py.eqb cur (PStr v))
          (DatabaseManager.get_available_versions cfg b) = true
  <-> exists s, cur = PStr s
                /\ In s (DatabaseManager.get_available_versions cfg b).
Proof.
  rewrite existsb_exists. split.
  - intros [s [H1 H2]]. apply py_eqb_eq in H2. eauto.
  - intros [s [-> H]]. exists s. split; auto. now apply py_eqb_eq.
Qed.

End NameListing.

(** X6. [DatabaseManager.get_available_versions] returns at most 100 names,
    in descending order of the names themselves, and they are exactly the
    names of the manifests read, with their repetitions. *)
Theorem database_manager_listing :
  forall cfg b,
    let names := DatabaseManager.get_available_versions cfg b in
    (length names <= 100)%nat /\
    Sorted (fun x y => String.leb y x = true) names /\
    Permutation names
      (map (fun o => VersionManager.version_of_key (Key o))
           (listed_manifests cfg b)).
Proof.
  intros cfg b names. subst names. split; [| split ].
  - rewrite (Permutation_length (names_perm cfg b)), length_map.
    apply listed_manifests_length.
  - apply (sort_sorted (fun x y => String.leb y x)).
    intros x y _ _ H. destruct (String.leb_total x y); congruence.
  - apply names_perm.
Qed.

(** X7. The two managers agree on which versions exist whenever the catalog
    of the version manager could be sorted: a version that passes the
    catalog check is always among the names the database manager lists, and
    a listed name passes the catalog check if the upload times compare. *)
Theorem listings_agree :
  forall cfg b V,
    (in_catalog cfg b V = true ->
     In V (DatabaseManager.get_available_versions cfg b)) /\
    (VersionManager.sortable
       (map VersionManager.uploaded_at
            (map VersionManager.version_info_of (listed_manifests cfg b)))
     = true ->
     In V (DatabaseManager.get_available_versions cfg b) ->
     in_catalog cfg b V = true).
Proof.
  intros cfg b V. split; [ apply in_catalog_in_names |].
  intros Hs Hin. apply in_names_iff in Hin as [o [Ho Hv]].
  apply in_catalog_iff. exists (VersionManager.version_info_of o). split.
  - destruct (available_versions_cases cfg b) as [[_ E] | [E _]].
    + rewrite E. apply (Permutation_in _ (Permutation_sym (sort_perm _ _))).
      now apply in_map.
    + rewrite Hs in E. discriminate.
  - now rewrite version_of_info.
Qed.

Lemma listings_agree_witness :
  In "v4" (DatabaseManager.get_available_versions Config.default
             sample_bucket)
  /\ in_catalog Config.default sample_bucket "v2" = true.
Proof.
  split.
  - apply (proj1 (listings_agree Config.default sample_bucket "v4")).
    reflexivity.
  - apply (proj2 (listings_agree Config.default sample_bucket "v2")).
    + reflexivity.
    + vm_compute. auto 10.
Defined.

(** X8. After a promotion without [force] that reports success, of a
    version whose name is not empty, the [/v1/version] endpoint returns that
    version, whatever the clock; the keys it reports are built from the
    name alone. *)
Theorem version_endpoint_after_promote :
  forall cfg b clk clk' io V d,
    V <> EmptyString ->
    let r := VersionManager.promote_version cfg b clk io V false d in
    fst (fst r) = true ->
    Main.get_current_version cfg b clk' (snd r)
    = Main.Returned
        {| Main.vi_version := V;
           Main.s3_key := "snapshots/database_" ++ V ++ ".sqlite";
           Main.manifest_key := "manifests/manifest_" ++ V ++ ".json";
           Main.uploaded_at := now_iso clk';
           Main.sha256 := EmptyString;
           Main.size := 0;
           Main.is_active := true |}.
Proof.
  intros cfg b clk clk' io V d Hne r Hs. subst r.
  destruct (promote_success_inv _ _ _ _ _ _ _ Hs) as [Hok [n ->]].
  rewrite orb_false_r in Hok.
  assert (Hcur : get_current_version
                   (snd (VersionManager.promote_version cfg b clk
                           (Written n) V false d)) = PStr V).
  { unfold get_current_version.
    rewrite pointer_after_promote by now rewrite Hok. reflexivity. }
  assert (Hex : existsb (fun v => Py.eqb (PStr V) (PStr v))
                  (DatabaseManager.get_available_versions cfg b) = true).
  { apply existsb_names. exists V. split; auto.
    now apply in_catalog_in_names. }
  unfold Main.get_current_version. rewrite Hcur, Hex.
  apply String.eqb_neq in Hne. simpl. rewrite Hne. reflexivity.
Qed.

Lemma version_endpoint_after_promote_witness :
  match Main.get_current_version Config.default sample_bucket sample_clock
          (snd (VersionManager.promote_version Config.default sample_bucket
                  sample_clock (Written 200) "v3" false sample_dir)) with
  | Main.Returned body => Main.vi_version body = "v3"
  | Main.HTTPException _ _ => False
  end.
Proof.
  rewrite (version_endpoint_after_promote Config.default sample_bucket
             sample_clock sample_clock (Written 200) "v3" sample_dir).
  - reflexivity.
  - discriminate.
  - reflexivity.
Defined.

(** X9. The [/v1/version] endpoint answers 404 "No active version found"
    when the pointer gives no version or an empty one, and 404 "Current
    version not found in S3" when the version of the pointer is not among
    the names listed; the second is what follows a forced promotion of a
    version that has no manifest. *)
Theorem version_endpoint_not_found :
  forall cfg b clk d,
    (truthy (get_current_version d) = false ->
     Main.get_current_version cfg b clk d
     = Main.HTTPException 404 "No active version found") /\
    (forall clk0 n V,
       V <> EmptyString ->
       ~ In V (DatabaseManager.get_available_versions cfg b) ->
       let r := VersionManager.promote_version cfg b clk0 (Written n) V
                  true d in
       fst (fst r) = true /\
       Main.get_current_version cfg b clk (snd r)
       = Main.HTTPException 404 "Current version not found in S3").
Proof.
  intros cfg b clk d. split.
  - intros H. unfold Main.get_current_version. now rewrite H.
  - intros clk0 n V Hne Hnot r. subst r.
    assert (Hok : in_catalog cfg b V || true = true) by apply orb_true_r.
    split; [ now rewrite promote_written |].
    assert (Hcur : get_current_version
                     (snd (VersionManager.promote_version cfg b clk0
                             (Written n) V true d)) = PStr V).
    { unfold get_current_version.
      rewrite pointer_after_promote by assumption. reflexivity. }
    unfold Main.get_current_version. rewrite Hcur.
    destruct (existsb _ _) eqn:Hex.
    + apply existsb_names in Hex as [s [[= <-] Hin]]. contradiction.
    + apply String.eqb_neq in Hne. simpl. rewrite Hne. reflexivity.
Qed.

Lemma version_endpoint_not_found_witness :
  Main.get_current_version Config.default sample_bucket sample_clock
    (snd (VersionManager.promote_version Config.default sample_bucket
            sample_clock (Written 200) "v9" true sample_dir))
  = Main.HTTPException 404 "Current version not found in S3".
Proof.
  apply (proj2 (version_endpoint_not_found Config.default sample_bucket
                  sample_clock sample_dir) sample_clock 200%N "v9").
  - discriminate.
  - vm_compute. intuition discriminate.
Defined.

(** ** Promotions in sequence *)

Section PromotionSequence.

Import VersionManager.

Variables (cfg : Config.t) (b : bucket).

Lemma current_after_promote clk n V force d :
  in_catalog cfg b V || force = true ->
  get_current_version (snd (promote_version cfg b clk (Written n) V force d))
  = PStr V.
Proof.
  intros H. unfold get_current_version.
  now rewrite pointer_after_promote.
Qed.

Lemma previous_after_promote clk n V force d :
  in_catalog cfg b V || force = true ->
  pointer_member "previous_version"
    (snd (promote_version cfg b clk (Written n) V force d))
  = get_current_version d.
Proof.
  intros H. unfold pointer_member.
  now rewrite pointer_after_promote.
Qed.

Lemma promote_failed_write clk n e V force d :
  in_catalog cfg b V || force = true ->
  promote_version cfg b clk (DumpRaises n e) V force d
  = ((false, "Error promoting version: " ++ e),
     write Config.CURRENT_VERSION_FILE
       {| st_size := n; st_mtime := now clk; data := Unreadable |} d).
Proof.
  intros H. unfold promote_version, in_catalog in *.
  destruct (existsb _ _); destruct force; simpl in *;
    try discriminate; reflexivity.
Qed.

End PromotionSequence.

(** X10. Two promotions in a row, of different versions, the first with a
    name that is not empty, each listed or forced and each with a completed
    pointer write: afterwards the second version is current, the first is
    recorded as [previous_version], and the cached database and manifest of
    the first are gone. *)
Theorem promote_twice :
  forall cfg b clk1 clk2 n1 n2 V1 V2 force1 force2 d,
    in_catalog cfg b V1 || force1 = true ->
    in_catalog cfg b V2 || force2 = true ->
    V1 <> EmptyString -> V1 <> V2 ->
    let d1 := snd (VersionManager.promote_version cfg b clk1 (Written n1)
                     V1 force1 d) in
    let r2 := VersionManager.promote_version cfg b clk2 (Written n2)
                V2 force2 d1 in
    fst (fst r2) = true /\
    get_current_version (snd r2) = PStr V2 /\
    pointer_member "previous_version" (snd r2) = PStr V1 /\
    lookup (Config.get_database_cache_path V1) (snd r2) = None /\
    lookup (Config.get_manifest_cache_path V1) (snd r2) = None.
Proof.
  intros cfg b clk1 clk2 n1 n2 V1 V2 force1 force2 d H1 H2 Hne Hdiff d1 r2.
  assert (Hcur : get_current_version d1 = PStr V1)
    by (apply current_after_promote; assumption).
  subst r2. split; [ now rewrite promote_written |].
  split; [ now apply current_after_promote |].
  split; [ rewrite previous_after_promote; assumption |].
  rewrite promote_written by assumption. cbv zeta. rewrite Hcur.
  simpl. apply String.eqb_neq in Hne, Hdiff. rewrite Hne, Hdiff. simpl.
  split; [ apply invalidate_removes_database
         | apply invalidate_removes_manifest ].
Qed.

Lemma promote_twice_witness :
  let d1 := snd (VersionManager.promote_version Config.default sample_bucket
                   sample_clock (Written 200) "v4" false sample_dir) in
  let r2 := VersionManager.promote_version Config.default sample_bucket
              sample_clock_late (Written 200) "v3" false d1 in
  fst (fst r2) = true /\
  get_current_version (snd r2) = PStr "v3" /\
  pointer_member "previous_version" (snd r2) = PStr "v4" /\
  lookup "database_v4.sqlite" (snd r2) = None /\
  lookup "manifest_v4.json" (snd r2) = None.
Proof.
  apply (promote_twice Config.default sample_bucket sample_clock
           sample_clock_late 200%N 200%N "v4" "v3" false false sample_dir).
  - reflexivity.
  - reflexivity.
  - discriminate.
  - discriminate.
Defined.

(** X11. A promotion whose pointer write raises midway erases the history:
    the next promotion that completes records [None] as
    [previous_version], and removes no cached file, so the files of the
    version that was current before the failure stay in the cache. *)
Theorem promote_after_failed_write :
  forall cfg b clk1 clk2 n1 e n2 V1 V2 force1 force2 d,
    in_catalog cfg b V1 || force1 = true ->
    in_catalog cfg b V2 || force2 = true ->
    let d1 := snd (VersionManager.promote_version cfg b clk1
                     (DumpRaises n1 e) V1 force1 d) in
    let r2 := VersionManager.promote_version cfg b clk2 (Written n2)
                V2 force2 d1 in
    fst (fst r2) = true /\
    get_current_version (snd r2) = PStr V2 /\
    pointer_member "previous_version" (snd r2) = PNone /\
    forall name, name <> Config.CURRENT_VERSION_FILE ->
                 lookup name (snd r2) = lookup name d.
Proof.
  intros cfg b clk1 clk2 n1 e n2 V1 V2 force1 force2 d H1 H2 d1 r2.
  assert (Ed1 : d1 = write Config.CURRENT_VERSION_FILE
                       {| st_size := n1; st_mtime := now clk1;
                          data := Unreadable |} d)
    by (subst d1; now rewrite promote_failed_write).
  assert (Hcur : get_current_version d1 = PNone).
  { rewrite Ed1. unfold get_current_version.
    now rewrite lookup_write_same. }
  subst r2. split; [ now rewrite promote_written |].
  split; [ now apply current_after_promote |].
  split; [ rewrite previous_after_promote; assumption |].
  intros name Hname.
  rewrite promote_written by assumption. cbv zeta. rewrite Hcur. simpl.
  rewrite lookup_write_other by assumption.
  rewrite Ed1. now apply lookup_write_other.
Qed.

Lemma promote_after_failed_write_witness :
  let d1 := snd (VersionManager.promote_version Config.default sample_bucket
                   sample_clock (DumpRaises 0 "[Errno 28] No space left")
                   "v4" false sample_dir) in
  let r2 := VersionManager.promote_version Config.default sample_bucket
              sample_clock_late (Written 200) "v3" false d1 in
  pointer_member "previous_version" (snd r2) = PNone /\
  lookup "database_v5.sqlite" (snd r2)
  = lookup "database_v5.sqlite" sample_dir.
Proof.
  destruct (promote_after_failed_write Config.default sample_bucket
              sample_clock sample_clock_late 0%N "[Errno 28] No space left"
              200%N "v4" "v3" false false sample_dir eq_refl eq_refl)
    as [_ [_ [H1 H2]]].
  split; [ exact H1 |]. apply H2. discriminate.
Defined.

(** X12. [set_current_version] and [get_current_version] round-trip: after
    a completed write the pointer gives the version set, in either manager;
    the record holds no [previous_version], every other file is as it was,
    and a promotion that follows records the version set as its
    predecessor.  When [open] raises the method returns [False] and nothing
    changes. *)
Theorem set_current_version_round_trip :
  forall clk n V d,
    let r := DatabaseManager.set_current_version clk (Written n) V d in
    fst r = true /\
    get_current_version (snd r) = PStr V /\
    pointer_member "updated_by" (snd r) = PStr "api" /\
    pointer_member "previous_version" (snd r) = PNone /\
    (forall name, name <> Config.CURRENT_VERSION_FILE ->
                  lookup name (snd r) = lookup name d) /\
    (forall cfg b clk' n' W,
       pointer_member "previous_version"
         (snd (VersionManager.promote_version cfg b clk' (Written n') W
                 true (snd r)))
       = PStr V) /\
    (forall e, DatabaseManager.set_current_version clk (OpenRaises e) V d
               = (false, d)).
Proof.
  intros clk n V d r. subst r. simpl.
  unfold get_current_version, pointer_member.
  rewrite lookup_write_same. simpl.
  repeat split; auto.
  - intros name Hname. now apply lookup_write_other.
  - intros cfg b clk' n' W.
    fold (pointer_member "previous_version"
            (snd (VersionManager.promote_version cfg b clk' (Written n') W
                    true
                    (write Config.CURRENT_VERSION_FILE
                       {| st_size := n; st_mtime := now clk;
                          data := Json [("version", PStr V);
                                        ("updated_at", PStr (now_iso clk));
                                        ("updated_by", PStr "api")] [] |}
                       d)))).
    rewrite previous_after_promote by apply orb_true_r.
    unfold get_current_version. now rewrite lookup_write_same.
Qed.

Lemma set_current_version_round_trip_witness :
  let r := DatabaseManager.set_current_version sample_clock (Written 80)
             "v2" sample_dir in
  get_current_version (snd r) = PStr "v2" /\
  lookup "database_v5.sqlite" (snd r) = lookup "database_v5.sqlite" sample_dir.
Proof.
  destruct (set_current_version_round_trip sample_clock 80%N "v2" sample_dir)
    as [_ [H1 [_ [_ [H2 _]]]]].
  split; [ exact H1 |]. apply H2. discriminate.
Defined.

(** X13. After a completed promotion of a version with a name that is not
    empty, [get_version_status] reports that version as current; its
    [current_version_info] is an entry of the catalog for that version when
    the catalog lists it, and [None] when the promotion was forced for a
    version the catalog does not list.  [total_versions] is the length of
    the catalog reported, at most 100. *)
Theorem version_status_after_promote :
  forall cfg b clk clk' n V force d,
    in_catalog cfg b V || force = true ->
    V <> EmptyString ->
    let d' := snd (VersionManager.promote_version cfg b clk (Written n) V
                     force d) in
    let st := VersionManager.get_version_status cfg b clk' d' in
    VersionManager.current_version st = PStr V /\
    VersionManager.total_versions st
    = length (VersionManager.available_versions st) /\
    (VersionManager.total_versions st <= 100)%nat /\
    (in_catalog cfg b V = true ->
     exists vi, VersionManager.current_version_info st = Some vi /\
                In vi (VersionManager.available_versions st) /\
                VersionManager.version vi = V) /\
    (in_catalog cfg b V = false ->
     VersionManager.current_version_info st = None).
Proof.
  intros cfg b clk clk' n V force d Hok Hne d' st.
  assert (Hcur : get_current_version d' = PStr V)
    by (apply current_after_promote; assumption).
  subst st. unfold VersionManager.get_version_status. rewrite Hcur. simpl.
  apply String.eqb_neq in Hne. rewrite Hne. simpl.
  split; [ reflexivity |]. split; [ reflexivity |].
  split; [ apply available_versions_length |]. split.
  - intros Hc. apply in_catalog_iff in Hc as [vi [Hin Hv]].
    destruct (find _ _) as [vj|] eqn:Ef.
    + apply find_some in Ef as [H1 H2]. apply String.eqb_eq in H2.
      exists vj. auto.
    + apply (find_none _ _ Ef) in Hin. simpl in Hin.
      rewrite Hv, String.eqb_refl in Hin. discriminate.
  - intros Hc. destruct (find _ _) as [vj|] eqn:Ef; auto.
    apply find_some in Ef as [H1 H2]. apply String.eqb_eq in H2.
    assert (Hin : in_catalog cfg b V = true)
      by (apply in_catalog_iff; eauto).
    rewrite Hc in Hin. discriminate.
Qed.

Lemma version_status_after_promote_witness :
  let d' := snd (VersionManager.promote_version Config.default sample_bucket
                   sample_clock (Written 200) "v9" true sample_dir) in
  let st := VersionManager.get_version_status Config.default sample_bucket
              sample_clock_late d' in
  VersionManager.current_version st = PStr "v9" /\
  VersionManager.current_version_info st = None.
Proof.
  destruct (version_status_after_promote Config.default sample_bucket
              sample_clock sample_clock_late 200%N "v9" true sample_dir
              eq_refl) as [H1 [_ [_ [_ H2]]]].
  - discriminate.
  - split; [ exact H1 | exact (H2 eq_refl) ].
Defined.

(** ** Cache invalidation and the count-bounded cleanup, further *)

Section InvalidateMore.

Import VersionManager.

Lemma invalidate_absent v d :
  lookup (Config.get_database_cache_path v) d = None ->
  lookup (Config.get_manifest_cache_path v) d = None ->
  _invalidate_cache v d = d.
Proof.
  intros Hd Hm. unfold _invalidate_cache, exists_. now rewrite Hd, Hm.
Qed.

Lemma invalidate_only_deletes v d : only_deletes (_invalidate_cache v d) d.
Proof.
  intros name f. unfold _invalidate_cache.
  destruct (exists_ (Config.get_database_cache_path v) d);
    destruct (exists_ (Config.get_manifest_cache_path v) _);
    repeat rewrite in_unlink; tauto.
Qed.

Lemma invalidate_all_only_deletes vs d : only_deletes (invalidate_all vs d) d.
Proof.
  revert d. induction vs as [|v vs IH]; intros d name f H; simpl in *; auto.
  apply IH in H. now apply invalidate_only_deletes in H.
Qed.

Lemma invalidate_all_absent vs d :
  (forall v, In v vs ->
     lookup (Config.get_database_cache_path v) d = None /\
     lookup (Config.get_manifest_cache_path v) d = None) ->
  invalidate_all vs d = d.
Proof.
  induction vs as [|v vs IH]; intros H; simpl; auto.
  destruct (H v (or_introl eq_refl)) as [Hd Hm].
  rewrite invalidate_absent by assumption.
  apply IH. intros u Hu. apply H. now right.
Qed.

Lemma invalidate_all_keeps_pointer vs d :
  lookup Config.CURRENT_VERSION_FILE (invalidate_all vs d)
  = lookup Config.CURRENT_VERSION_FILE d.
Proof.
  revert d. induction vs as [|v vs IH]; intros d; simpl; auto.
  rewrite IH. apply invalidate_keeps_pointer.
Qed.

End InvalidateMore.

(** X14. [_invalidate_cache] only deletes: every entry it leaves was there
    before.  It changes nothing when neither file of the version is cached,
    and so running it twice is the same as running it once. *)
Theorem invalidate_cache_idempotent :
  forall v d,
    only_deletes (VersionManager._invalidate_cache v d) d /\
    (lookup (Config.get_database_cache_path v) d = None ->
     lookup (Config.get_manifest_cache_path v) d = None ->
     VersionManager._invalidate_cache v d = d) /\
    VersionManager._invalidate_cache v (VersionManager._invalidate_cache v d)
    = VersionManager._invalidate_cache v d.
Proof.
  intros v d. split; [ apply invalidate_only_deletes |].
  split; [ apply invalidate_absent |].
  apply invalidate_absent;
    [ apply invalidate_removes_database | apply invalidate_removes_manifest ].
Qed.

Lemma invalidate_cache_idempotent_witness :
  VersionManager._invalidate_cache "v9" sample_dir = sample_dir.
Proof.
  apply (proj1 (proj2 (invalidate_cache_idempotent "v9" sample_dir)));
    reflexivity.
Defined.

(** X15. [cleanup_old_versions] never touches the pointer file and only
    deletes: the current version is the same afterwards and every entry
    left was there before.  Run again on its own result, with the same
    bucket, it reports the same versions and changes nothing more. *)
Theorem cleanup_old_versions_idempotent :
  forall cfg b keep d,
    let r := VersionManager.cleanup_old_versions cfg b keep d in
    lookup Config.CURRENT_VERSION_FILE (snd r)
    = lookup Config.CURRENT_VERSION_FILE d /\
    get_current_version (snd r) = get_current_version d /\
    only_deletes (snd r) d /\
    VersionManager.cleanup_old_versions cfg b keep (snd r) = r.
Proof.
  intros cfg b keep d r. subst r.
  rewrite cleanup_old_versions_unfold. cbv zeta. cbn [fst snd].
  set (removed := VersionManager.versions_to_remove _ _ _).
  assert (Hp : lookup Config.CURRENT_VERSION_FILE (invalidate_all removed d)
               = lookup Config.CURRENT_VERSION_FILE d)
    by apply invalidate_all_keeps_pointer.
  assert (Hc : get_current_version (invalidate_all removed d)
               = get_current_version d)
    by (unfold get_current_version; now rewrite Hp).
  split; [ exact Hp |]. split; [ exact Hc |].
  split; [ apply invalidate_all_only_deletes |].
  rewrite cleanup_old_versions_unfold. cbv zeta. rewrite Hc.
  fold removed. f_equal.
  apply invalidate_all_absent. intros v Hv.
  now apply invalidate_all_removes.
Qed.

Section CleanupBounds.

Import VersionManager.

Lemma filter_enumerate_none {A : Type} (p : A -> bool) keep (l : list A) k :
  k + Z.of_nat (length l) <= keep ->
  filter (fun q => p (snd q) && (keep <=? fst q)) (enumerate_from k l) = [].
Proof.
  revert k. induction l as [|x l IH]; intros k Hk; simpl in *; auto.
  assert (E : (keep <=? k) = false) by (apply Z.leb_gt; lia).
  rewrite E, andb_false_r. apply IH. lia.
Qed.

Lemma filter_enumerate_all {A : Type} (p : A -> bool) keep (l : list A) k :
  keep <= k ->
  map snd (filter (fun q => p (snd q) && (keep <=? fst q))
                  (enumerate_from k l))
  = filter p l.
Proof.
  revert k. induction l as [|x l IH]; intros k Hk; simpl; auto.
  assert (E : (keep <=? k) = true) by (apply Z.leb_le; lia).
  rewrite E, andb_true_r.
  destruct (p x); simpl; rewrite IH by lia; reflexivity.
Qed.

End CleanupBounds.

(** X16. The bounds of [keep_count].  With [keep_count] at least the number
    of listed versions, [cleanup_old_versions] returns [(0, [])] and leaves
    the directory as it was.  With [keep_count] zero or negative it selects
    every listed version other than the current one, in the order of the
    ranking. *)
Theorem cleanup_old_versions_bounds :
  forall cfg b keep d,
    let catalog := VersionManager.get_available_versions cfg b in
    (Z.of_nat (length catalog) <= keep ->
     VersionManager.cleanup_old_versions cfg b keep d = ((0, []), d)) /\
    (keep <= 0 ->
     snd (fst (VersionManager.cleanup_old_versions cfg b keep d))
     = map VersionManager.version
           (filter (fun v =>
                      negb (Py.eqb (PStr (VersionManager.version v))
                                   (get_current_version d)))
                   catalog)).
Proof.
  intros cfg b keep d catalog. subst catalog.
  rewrite cleanup_old_versions_unfold. cbv zeta.
  unfold VersionManager.versions_to_remove, enumerate. split.
  - intros Hk.
    rewrite (filter_enumerate_none
               (fun v => negb (Py.eqb (PStr (VersionManager.version v))
                                      (get_current_version d)))) by lia.
    reflexivity.
  - intros Hk. cbn [fst snd].
    rewrite <- (filter_enumerate_all
                  (fun v => negb (Py.eqb (PStr (VersionManager.version v))
                                         (get_current_version d)))
                  keep _ 0 Hk).
    now rewrite map_map.
Qed.

Lemma cleanup_old_versions_bounds_witness :
  VersionManager.cleanup_old_versions Config.default sample_bucket 5
    sample_dir = ((0, []), sample_dir)
  /\
  snd (fst (VersionManager.cleanup_old_versions Config.default sample_bucket
              0 sample_dir))
  = ["v4"; "v3"; "v2"; "v1"].
Proof.
  destruct (cleanup_old_versions_bounds Config.default sample_bucket 5
              sample_dir) as [H1 _].
  destruct (cleanup_old_versions_bounds Config.default sample_bucket 0
              sample_dir) as [_ H2].
  split.
  - apply H1. vm_compute. discriminate.
  - rewrite H2 by lia. reflexivity.
Defined.

(** ** Connections, further *)

Section ConnectionMore.

Import DatabaseManager.

Variables (cfg : Config.t) (b : bucket) (clk : Clock).

Lemma download_file_other key dest d d' name :
  download_file clk b key dest d = Some d' ->
  name <> dest -> lookup name d' = lookup name d.
Proof.
  unfold download_file. destruct (head_object key b); [| discriminate ].
  intros [= <-] Hne. now apply lookup_write_other.
Qed.

(** [download_database_from_s3] writes no other file than the manifest and
    the database of the version. *)
Lemma download_frame v w name :
  name <> Config.get_database_cache_path (str v) ->
  name <> Config.get_manifest_cache_path (str v) ->
  lookup name (cache (snd (download_database_from_s3 cfg b clk v w)))
  = lookup name (cache w).
Proof.
  intros Hd Hm. unfold download_database_from_s3.
  destruct (download_file _ _ _ _ (cache w)) as [d1|] eqn:E1; auto.
  pose proof (download_file_other _ _ _ _ name E1 Hm) as H1.
  destruct (option_map data _) as [[| fields files |]|]; simpl; auto.
  destruct (find _ _) as [info|]; simpl; auto.
  destruct (s3_key info) as [key|]; simpl; auto.
  destruct (download_file _ _ key _ d1) as [d2|] eqn:E2; simpl; auto.
  pose proof (download_file_other _ _ _ _ name E2 Hd) as H2.
  destruct (match lookup _ d2 with Some _ => _ | None => _ end); simpl.
  - congruence.
  - rewrite lookup_unlink_other by assumption. congruence.
Qed.


Lemma refresh_frame v m w0 name :
  name <> Config.get_database_cache_path (str v) ->
  name <> Config.get_manifest_cache_path (str v) ->
  lookup name (cache (snd (refresh cfg b clk v m w0)))
  = lookup name (cache w0).
Proof.
  intros Hd Hm. unfold refresh.
  destruct (is_cache_valid cfg clk v w0) as [valid w1] eqn:E1.
  pose proof (is_cache_valid_quiet cfg clk v w0) as [_ Hc1].
  rewrite E1 in Hc1. simpl in Hc1.
  destruct valid; simpl negb; cbv iota.
  - unfold log. destruct (_db_connection m); simpl; congruence.
  - pose proof (download_frame v w1 name Hd Hm) as Hf.
    destruct (download_database_from_s3 cfg b clk v w1) as [ok w2].
    simpl in Hf.
    destruct ok; simpl negb; cbv iota; simpl; [| congruence ].
    unfold log. destruct (_db_connection m); simpl; congruence.
Qed.

Lemma get_database_connection_frame version m w name :
  let v := resolve version (cache w) in
  name <> Config.get_database_cache_path (str v) ->
  name <> Config.get_manifest_cache_path (str v) ->
  lookup name (cache (snd (get_database_connection cfg b clk version m w)))
  = lookup name (cache w).
Proof.
  intros v Hd Hm. rewrite get_database_connection_unfold. fold v. cbv zeta.
  destruct (truthy v); simpl negb; cbv iota; auto.
  destruct (Py.eqb (_current_version m) v); simpl negb; cbv iota.
  - destruct (is_cache_valid cfg clk v w) as [valid w'] eqn:E0.
    pose proof (is_cache_valid_quiet cfg clk v w) as [_ Hc].
    rewrite E0 in Hc. simpl in Hc.
    destruct valid; simpl negb; cbv iota.
    + destruct (_db_connection m); simpl.
      * now rewrite Hc.
      * rewrite refresh_frame by assumption. now rewrite Hc.
    + rewrite refresh_frame by assumption. now rewrite Hc.
  - now apply refresh_frame.
Qed.

Lemma get_database_connection_without_version_lemma version m w :
  truthy (resolve version (cache w)) = false ->
  get_database_connection cfg b clk version m w = (None, m, w).
Proof.
  intros H. rewrite get_database_connection_unfold. cbv zeta. now rewrite H.
Qed.

(** After a call that returned a connection, the version it worked on is a
    true value and its cached database is one that answers the probe. *)
Lemma get_database_connection_good_file version m w h :
  fst (fst (get_database_connection cfg b clk version m w)) = Some h ->
  let v := resolve version (cache w) in
  truthy v = true /\
  exists f,
    lookup (Config.get_database_cache_path (str v))
           (cache (snd (get_database_connection cfg b clk version m w)))
    = Some f /\
    data f = Sqlite true.
Proof.
  intros Hs v. split.
  - rewrite get_database_connection_unfold in Hs. fold v in Hs.
    cbv zeta in Hs. destruct (truthy v); auto. discriminate.
  - pose proof (get_database_connection_cases cfg b clk version m w) as H.
    cbv zeta in H. fold v in H.
    destruct H as [[E _] | [[h0 [_ [_ [E [f [Hf Hd]]]]]]
                             | [w2 [f [_ [Hf [Hd E]]]]]]].
    + rewrite E in Hs. discriminate.
    + exists f. rewrite E. simpl. auto.
    + exists f. rewrite E. unfold replaced. simpl. auto.
Qed.

(** What [is_cache_valid] answers on a file that answers the probe: whether
    its age is within the TTL at the time of the call. *)
Lemma is_cache_valid_good_file clk' v w f :
  lookup (Config.get_database_cache_path (str v)) (cache w) = Some f ->
  data f = Sqlite true ->
  is_cache_valid cfg clk' v w
  = (negb (Config.DATABASE_CACHE_TTL cfg <? now clk' - st_mtime f),
     if Config.DATABASE_CACHE_TTL cfg <? now clk' - st_mtime f then w
     else log (EvVerify (Config.get_database_cache_path (str v)) true) w).
Proof.
  intros Hf Hd. unfold is_cache_valid, _verify_database_integrity.
  rewrite Hf. destruct (_ <? _); auto. now rewrite Hd.
Qed.

End ConnectionMore.

Section Shutdown.

Lemma reachable_holds_only m w : reachable m w -> holds_only m w.
Proof.
  induction 1 as [d | cfg b clk version m w _ IH | m w _ IH | m w d _ IH].
  - reflexivity.
  - pose proof (get_database_connection_cases cfg b clk version m w) as H.
    cbv zeta in H.
    destruct H as [[E Hq] | [[h [Eh [_ [E _]]]]
                             | [w2 [f [Hq [_ [_ E]]]]]]].
    + assert (Em : snd (fst (DatabaseManager.get_database_connection
                               cfg b clk version m w)) = m)
        by now rewrite E.
      rewrite Em. unfold holds_only in *.
      now rewrite (quiet_live _ _ Hq).
    + rewrite E. exact IH.
    + rewrite E. unfold replaced, holds_only in *. simpl.
      rewrite <- (quiet_live _ _ Hq) in IH.
      now rewrite (live_after_closing m _ IH).
  - unfold DatabaseManager.close, holds_only in *.
    destruct (DatabaseManager._db_connection m) as [h|] eqn:Eh; simpl.
    + now rewrite IH, filter_self_out.
    + now rewrite Eh.
  - exact IH.
Qed.

End Shutdown.

(** X17. The manager the application creates at startup is in a reachable
    state, whatever the size-bounded cleanup deleted.  From any state the
    manager can reach, the shutdown of the application ([close]) leaves no
    connection open and the manager holding none; a second [close] does
    nothing. *)
Theorem close_leaves_nothing_open :
  (forall cfg d,
     let s := Main.lifespan_startup cfg
                {| DatabaseManager.cache := d;
                   DatabaseManager.events := [] |} in
     reachable (fst s) (snd s)) /\
  (forall m w,
     reachable m w ->
     let r := Main.lifespan_shutdown m w in
     live (DatabaseManager.events (snd r)) = [] /\
     DatabaseManager._db_connection (fst r) = None /\
     DatabaseManager.close (fst r) (snd r) = r).
Proof.
  split.
  - intros cfg d s. subst s. unfold Main.lifespan_startup. simpl.
    apply reach_init.
  - intros m w Hr r. subst r. unfold Main.lifespan_shutdown.
    pose proof (reachable_holds_only m w Hr) as Hh.
    unfold DatabaseManager.close, holds_only in *.
    destruct (DatabaseManager._db_connection m) as [h|] eqn:Eh; simpl.
    + rewrite Hh, filter_self_out. auto.
    + rewrite Eh. auto.
Qed.

Lemma close_leaves_nothing_open_witness :
  let s := Main.lifespan_startup Config.default sample_world in
  let res := DatabaseManager.get_database_connection Config.default
               sample_store sample_clock_late (PStr "v4") (fst s) (snd s) in
  live (DatabaseManager.events (snd res)) = [3%nat] /\
  live (DatabaseManager.events
          (snd (Main.lifespan_shutdown (snd (fst res)) (snd res)))) = [].
Proof.
  split; [ reflexivity |].
  apply (proj2 close_leaves_nothing_open).
  apply reach_acquire.
  apply (proj1 close_leaves_nothing_open Config.default sample_dir).
Defined.





(** X20. With a TTL that is not negative, a download that returns [True]
    leaves a database that [is_cache_valid] accepts at once. *)
Theorem download_then_valid :
  forall cfg b clk v w,
    0 <= Config.DATABASE_CACHE_TTL cfg ->
    let r := DatabaseManager.download_database_from_s3 cfg b clk v w in
    fst r = true ->
    fst (DatabaseManager.is_cache_valid cfg clk v (snd r)) = true.
Proof.
  intros cfg b clk v w Httl r Hok. subst r.
  destruct (DatabaseManager.download_database_from_s3 cfg b clk v w)
    as [ok w'] eqn:E.
  simpl in Hok. subst ok.
  apply download_true in E as [key [f [_ [Hf [Hd Ht]]]]].
  simpl. rewrite (is_cache_valid_fresh cfg clk v w' f); auto. lia.
Qed.

Lemma download_then_valid_witness :
  fst (DatabaseManager.is_cache_valid Config.default sample_clock_late
         (PStr "v4")
         (snd (DatabaseManager.download_database_from_s3 Config.default
                 sample_store sample_clock_late (PStr "v4") sample_world)))
  = true.
Proof.
  apply (download_then_valid Config.default sample_store sample_clock_late
           (PStr "v4") sample_world).
  - simpl. lia.
  - reflexivity.
Defined.

(** X21. The health check.  With no usable pointer it reports "unhealthy"
    and "inactive" and changes nothing.  It reports "healthy" exactly when
    it reports the database connected.  When the database is connected, the
    cached database of the current version is one that answers the probe,
    and the cache is reported "active" exactly when that file is no older
    than the TTL at the later moment [is_cache_valid] reads the time: a
    file that expires between the two reads gives a connected database with
    an "inactive" cache. *)
Theorem health_check_reports :
  forall cfg b clk clk1 clk2 db w,
    let r := Main.health_check cfg b clk clk1 clk2 db w in
    let resp := fst (fst r) in
    (truthy (get_current_version (DatabaseManager.cache w)) = false ->
     r = ({| Main.status := "unhealthy";
             Main.version := "v1";
             Main.database_connected := false;
             Main.cache_status := "inactive";
             Main.timestamp := now_iso clk2 |}, db, w)) /\
    (Main.database_connected resp = false ->
     Main.status resp = "unhealthy") /\
    (Main.database_connected resp = true ->
     Main.status resp = "healthy" /\
     exists f,
       lookup (Config.get_database_cache_path
                 (str (get_current_version (DatabaseManager.cache w))))
              (DatabaseManager.cache (snd r)) = Some f /\
       data f = Sqlite true /\
       (Main.cache_status resp = "active" <->
        now clk1 - st_mtime f <= Config.DATABASE_CACHE_TTL cfg)).
Proof.
  intros cfg b clk clk1 clk2 db w r resp. subst resp r.
  unfold Main.health_check.
  split; [| split ].
  - intros Hnone.
    rewrite get_database_connection_without_version_lemma by exact Hnone.
    now rewrite Hnone.
  - destruct (DatabaseManager.get_database_connection cfg b clk PNone db w)
      as [[conn db1] w1].
    destruct (if truthy _ then _ else _) as [active w2].
    destruct conn; simpl; [ discriminate | reflexivity ].
  - pose proof (get_database_connection_good_file cfg b clk PNone db w) as Hg.
    pose proof (get_database_connection_frame cfg b clk PNone db w
                  Config.CURRENT_VERSION_FILE) as Hp.
    destruct (DatabaseManager.get_database_connection cfg b clk PNone db w)
      as [[conn db1] w1].
    destruct conn as [h|];
      [| destruct (if truthy _ then _ else _); simpl; discriminate ].
    destruct (Hg h eq_refl) as [Ht [f [Hf Hd]]].
    cbv zeta in Hp. simpl in Hp, Hf, Ht.
    assert (Hcur : get_current_version (DatabaseManager.cache w1)
                   = get_current_version (DatabaseManager.cache w)).
    { unfold get_current_version. rewrite Hp; auto.
      - intros H. symmetry in H. now apply database_path_not_pointer in H.
      - intros H. symmetry in H. now apply manifest_path_not_pointer in H. }
    rewrite Hcur, Ht.
    rewrite (is_cache_valid_good_file cfg clk1 _ w1 f Hf Hd).
    intros _. split; [ reflexivity |].
    exists f.
    destruct (Config.DATABASE_CACHE_TTL cfg <? now clk1 - st_mtime f)
      eqn:Hage; simpl.
    + apply Z.ltb_lt in Hage. repeat split; auto.
      * discriminate.
      * intros H. lia.
    + apply Z.ltb_ge in Hage. repeat split; auto.
Qed.

Lemma health_check_reports_witness :
  fst (fst (Main.health_check Config.default sample_store sample_clock
              sample_clock sample_clock DatabaseManager.init
              {| DatabaseManager.cache := [];
                 DatabaseManager.events := [] |}))
  = {| Main.status := "unhealthy";
       Main.version := "v1";
       Main.database_connected := false;
       Main.cache_status := "inactive";
       Main.timestamp := now_iso sample_clock |}
  /\
  (let resp := fst (fst (Main.health_check Config.default sample_store
                           sample_clock sample_clock_late sample_clock_late
                           DatabaseManager.init sample_world)) in
   Main.status resp = "healthy" /\ Main.cache_status resp = "inactive").
Proof.
  split.
  - rewrite (proj1 (health_check_reports Config.default sample_store
                      sample_clock sample_clock sample_clock
                      DatabaseManager.init
                      {| DatabaseManager.cache := [];
                         DatabaseManager.events := [] |}));
      reflexivity.
  - destruct (proj2 (proj2 (health_check_reports Config.default sample_store
                              sample_clock sample_clock_late
                              sample_clock_late DatabaseManager.init
                              sample_world)) eq_refl) as [H1 _].
    split; [ exact H1 | reflexivity ].
Defined.

(** ** The size-bounded cleanup, further *)

Section SizeBoundMore.

Import DatabaseManager.

Lemma glob_in name f d :
  In (name, f) (glob_databases d) <->
  In (name, f) d /\ is_database_file name = true.
Proof. unfold glob_databases. now rewrite filter_In. Qed.

Lemma candidates_are_databases keep d name :
  In name (candidates keep
             (map fst (Py.sort older_first (glob_databases d)))) ->
  is_database_file name = true /\ name <> keep.
Proof.
  unfold candidates. rewrite filter_In. intros [Hin Hne].
  apply in_map_iff in Hin as [[n f] [<- Hin]]. simpl in *.
  apply (Permutation_in _ (sort_perm older_first _)) in Hin.
  apply glob_in in Hin as [_ Hdb]. split; auto.
  apply negb_true_iff in Hne. now apply String.eqb_neq.
Qed.

Lemma remove_oldest_all_protected B keep files d :
  (forall n, In n files -> n = keep) ->
  remove_oldest B keep files d = d.
Proof.
  induction files as [|n files IH]; intros H; simpl; auto.
  rewrite (H n (or_introl eq_refl)), String.eqb_refl.
  apply IH. intros m Hm. apply H. now right.
Qed.

(** Once every candidate is unlinked, only files with the protected name
    are listed. *)
Lemma only_protected_left keep d name f :
  In (name, f)
     (glob_databases
        (unlink_all
           (candidates keep
              (map fst (Py.sort older_first (glob_databases d)))) d)) ->
  name = keep.
Proof.
  intros Hin. apply glob_in in Hin as [Hin Hdb].
  apply in_unlink_all in Hin as [Hin Hnot].
  destruct (String.eqb_spec name keep) as [|Hne]; auto.
  exfalso. apply Hnot. unfold candidates. apply filter_In. split.
  - apply in_map_iff. exists (name, f). split; auto.
    apply (Permutation_in _ (Permutation_sym (sort_perm older_first _))).
    now apply glob_in.
  - simpl. apply negb_true_iff. now apply String.eqb_neq.
Qed.

End SizeBoundMore.

(** X22. [cleanup_old_cache] only deletes, and only files matching
    [database_*.sqlite]: every other file, so the pointer and every cached
    manifest, is as it was, and the current version is unchanged.  Run
    again on its own result it changes nothing more. *)
Theorem cleanup_old_cache_idempotent :
  forall cfg d,
    let d' := DatabaseManager.cleanup_old_cache cfg d in
    only_deletes d' d /\
    (forall name,
       DatabaseManager.is_database_file name = false ->
       lookup name d' = lookup name d) /\
    get_current_version d' = get_current_version d /\
    DatabaseManager.cleanup_old_cache cfg d' = d'.
Proof.
  intros cfg d d'. subst d'.
  set (B := DatabaseManager.max_size_bytes cfg).
  set (keep := DatabaseManager.protected_name (get_current_version d)).
  assert (Hnoop : forall x,
            (DatabaseManager.total_size x <= B)%N ->
            DatabaseManager.cleanup_old_cache cfg x = x).
  { intros x Hx. unfold DatabaseManager.cleanup_old_cache. fold B.
    apply N.ltb_ge in Hx. now rewrite Hx. }
  destruct (B <? DatabaseManager.total_size d)%N eqn:Hover.
  2:{ apply N.ltb_ge in Hover. rewrite (Hnoop d Hover).
      repeat split; auto. intros name f H. exact H. }
  apply N.ltb_lt in Hover.
  set (names := map fst (Py.sort DatabaseManager.older_first
                           (DatabaseManager.glob_databases d))).
  destruct (remove_oldest_prefix B keep names d Hover)
    as [k [Hk [Heq [_ Hend]]]].
  assert (E : DatabaseManager.cleanup_old_cache cfg d
              = unlink_all (firstn k (candidates keep names)) d).
  { unfold DatabaseManager.cleanup_old_cache. fold B keep.
    apply N.ltb_lt in Hover. rewrite Hover. exact Heq. }
  assert (Hframe : forall name,
            DatabaseManager.is_database_file name = false ->
            lookup name (DatabaseManager.cleanup_old_cache cfg d)
            = lookup name d).
  { intros name Hn. rewrite E. apply lookup_unlink_all.
    intros Hin. apply in_firstn in Hin.
    apply candidates_are_databases in Hin as [Hdb _]. congruence. }
  assert (Hcur : get_current_version (DatabaseManager.cleanup_old_cache cfg d)
                 = get_current_version d).
  { unfold get_current_version. now rewrite Hframe. }
  split.
  { intros name f Hin. rewrite E in Hin.
    now apply in_unlink_all in Hin as [Hin _]. }
  split; [ exact Hframe |]. split; [ exact Hcur |].
  rewrite <- Heq in E.
  destruct Hend as [Hle | Hall].
  - apply Hnoop. now rewrite E.
  - rewrite Heq in E. rewrite Hall, firstn_all in E.
    unfold DatabaseManager.cleanup_old_cache at 1. fold B.
    rewrite Hcur. fold keep.
    destruct (B <? _)%N; auto.
    apply remove_oldest_all_protected.
    intros n Hn. apply in_map_iff in Hn as [[n' f] [<- Hn]]. simpl.
    apply (Permutation_in _ (sort_perm DatabaseManager.older_first _)) in Hn.
    rewrite E in Hn. now apply only_protected_left in Hn.
Qed.

Lemma cleanup_old_cache_idempotent_witness :
  lookup "manifest_v3.json"
    (DatabaseManager.cleanup_old_cache Config.default sample_dir)
  = lookup "manifest_v3.json" sample_dir.
Proof.
  apply (proj1 (proj2 (cleanup_old_cache_idempotent Config.default
                         sample_dir))).
  reflexivity.
Defined.

(** ** Manifest keys and version names *)

Section KeyNames.

Lemma string_app_assoc (a c e : string) : (a ++ c) ++ e = a ++ (c ++ e).
Proof. induction a; simpl; congruence. Qed.

Lemma has_char_cons c x s :
  has_char c (String x s) = Ascii.eqb c x || has_char c s.
Proof. reflexivity. Qed.

Lemma has_char_app c s t :
  has_char c (s ++ t) = has_char c s || has_char c t.
Proof.
  induction s as [|x s IH]; simpl; auto.
  rewrite !has_char_cons, IH. now rewrite orb_assoc.
Qed.

Lemma last_segment_after_slash a t :
  has_char "/" t = false -> last_segment (a ++ String "/" t) = t.
Proof.
  intros Ht. induction a as [|x a IH]; simpl.
  - change (has_slash t) with (has_char "/" t). now rewrite Ht.
  - change (has_slash (a ++ String "/" t))
      with (has_char "/" (a ++ String "/" t)).
    rewrite has_char_app, has_char_cons. simpl.
    now rewrite orb_true_r.
Qed.

Lemma prefix_has_char c old s :
  prefix old s = true -> has_char c old = true -> has_char c s = true.
Proof.
  revert s. induction old as [|a old IH]; intros s Hp Hc.
  - discriminate.
  - destruct s as [|x s]; simpl in Hp; [ discriminate |].
    destruct (ascii_dec a x) as [->|]; [| discriminate ].
    rewrite has_char_cons in *.
    apply orb_true_iff in Hc as [Hc | Hc].
    + now rewrite Hc.
    + rewrite (IH s Hp Hc). apply orb_true_r.
Qed.

(** A text that lacks one of the characters of [old] holds no occurrence of
    it, and [replace] returns the text. *)
Lemma replace_without_char c old new s :
  has_char c old = true -> has_char c s = false ->
  replace_from old new O s = s.
Proof.
  intros Hold. induction s as [|x s IH]; intros Hs; [ reflexivity |].
  cbn [replace_from].
  destruct (prefix old (String x s)) eqn:Hp.
  - rewrite (prefix_has_char c old _ Hp Hold) in Hs. discriminate.
  - rewrite has_char_cons in Hs. apply orb_false_iff in Hs as [_ Hs].
    now rewrite IH.
Qed.

Lemma strip_json_suffix v :
  has_char "." v = false -> replace ".json" EmptyString (v ++ ".json") = v.
Proof.
  unfold replace. induction v as [|x v IH]; intros Hv.
  - reflexivity.
  - rewrite has_char_cons in Hv. apply orb_false_iff in Hv as [Hx Hv].
    change (String x v ++ ".json") with (String x (v ++ ".json")).
    assert (Hp : prefix ".json" (String x (v ++ ".json")) = false).
    { cbn [prefix]. destruct (ascii_dec "." x) as [<-|Hne]; auto.
      discriminate. }
    cbn [replace_from]. rewrite Hp. now rewrite IH.
Qed.

Lemma substring_all s : substring 0 (String.length s) s = s.
Proof. induction s; simpl; congruence. Qed.

Lemma substring_suffix p suf :
  substring (String.length p) (String.length suf) (p ++ suf) = suf.
Proof.
  induction p as [|x p IH]; simpl; auto. apply substring_all.
Qed.

Lemma endswith_app p suf : endswith suf (p ++ suf) = true.
Proof.
  unfold endswith. rewrite append_length.
  replace (String.length p + String.length suf - String.length suf)%nat
    with (String.length p) by lia.
  rewrite substring_suffix, String.eqb_refl, andb_true_r.
  apply Nat.leb_le. lia.
Qed.

Lemma strip_manifest_prefix t :
  replace "manifest_" EmptyString ("manifest_" ++ t)
  = replace_from "manifest_" EmptyString O t.
Proof. destruct t; reflexivity. Qed.

End KeyNames.

(** X23. Names and keys round-trip: for a version name without [/], [_]
    and [.], the manifest key that [download_database_from_s3] fetches is
    read back by the catalog as that same name, and the key passes the
    [.json] filter of the catalog. *)
Theorem manifest_key_round_trip :
  forall cfg v,
    has_char "/" v = false ->
    has_char "_" v = false ->
    has_char "." v = false ->
    VersionManager.version_of_key
      (DatabaseManager.manifest_key_of cfg (PStr v)) = v /\
    endswith ".json" (DatabaseManager.manifest_key_of cfg (PStr v)) = true /\
    startswith (VersionManager.manifests_prefix cfg)
               (DatabaseManager.manifest_key_of cfg (PStr v)) = true.
Proof.
  intros cfg v Hs Hu Hd.
  unfold DatabaseManager.manifest_key_of, VersionManager.manifests_prefix.
  simpl str. split; [| split ].
  2:{ change (Config.S3_PREFIX cfg ++ "manifests/manifest_" ++ v ++ ".json")
        with (Config.S3_PREFIX cfg
              ++ ("manifests/manifest_" ++ (v ++ ".json"))).
      rewrite <- string_app_assoc, <- string_app_assoc.
      apply endswith_app. }
  - unfold VersionManager.version_of_key.
    change (Config.S3_PREFIX cfg ++ "manifests/manifest_" ++ v ++ ".json")
      with (Config.S3_PREFIX cfg
            ++ ("manifests" ++ String "/" ("manifest_" ++ v ++ ".json"))).
    rewrite <- string_app_assoc.
    rewrite last_segment_after_slash.
    + rewrite strip_manifest_prefix.
      rewrite (replace_without_char "_").
      * now apply strip_json_suffix.
      * reflexivity.
      * rewrite has_char_app, Hu. reflexivity.
    + change ("manifest_" ++ v ++ ".json")
        with ("manifest_" ++ (v ++ ".json")).
      rewrite !has_char_app, Hs. reflexivity.
  - unfold startswith.
    change (Config.S3_PREFIX cfg ++ "manifests/manifest_" ++ v ++ ".json")
      with (Config.S3_PREFIX cfg
            ++ ("manifests/" ++ ("manifest_" ++ v ++ ".json"))).
    rewrite <- string_app_assoc.
    generalize (Config.S3_PREFIX cfg ++ "manifests/") as p.
    generalize ("manifest_" ++ v ++ ".json") as t.
    intros t p. induction p as [|x p IH]; simpl.
    + now destruct t.
    + destruct (ascii_dec x x); [ exact IH | congruence ].
Qed.

Lemma manifest_key_round_trip_witness :
  VersionManager.version_of_key
    (DatabaseManager.manifest_key_of Config.default (PStr "2024w1"))
  = "2024w1".
Proof.
  apply (proj1 (manifest_key_round_trip Config.default "2024w1"
                  eq_refl eq_refl eq_refl)).
Defined.

(** ** The queries of [get_weekly_stats] *)

(** X24. In every query [get_weekly_stats] builds, the number of [?]
    placeholders equals the number of values bound: for the count query
    with [params], and for the data query with [params] followed by the
    limit and the offset.  The [WHERE] clause is empty exactly when no
    filter applies; an empty [league_id] or [season] is no filter, while a
    [week] or [roster_code] of 0 and an [is_playoff] of [False] are. *)
Theorem query_placeholders_match :
  forall q,
    length (DatabaseManager.where_conditions q)
    = length (DatabaseManager.params q) /\
    count_char "?" (DatabaseManager.count_query q)
    = length (DatabaseManager.params q) /\
    count_char "?" (DatabaseManager.data_query q)
    = length (DatabaseManager.data_params q) /\
    (DatabaseManager.where_clause q = EmptyString
     <-> DatabaseManager.params q = []) /\
    (DatabaseManager.params q = [] <->
     DatabaseManager.given (DatabaseManager.league_id q) = None /\
     DatabaseManager.given (DatabaseManager.season q) = None /\
     DatabaseManager.week q = None /\
     DatabaseManager.roster_code q = None /\
     DatabaseManager.is_playoff q = None).
Proof.
  intros [lg se wk rc pl lim off].
  unfold DatabaseManager.count_query, DatabaseManager.data_query,
    DatabaseManager.data_params, DatabaseManager.where_clause,
    DatabaseManager.where_conditions, DatabaseManager.params.
  cbn [DatabaseManager.league_id DatabaseManager.season DatabaseManager.week
       DatabaseManager.roster_code DatabaseManager.is_playoff
       DatabaseManager.limit DatabaseManager.offset].
  destruct (DatabaseManager.given lg), (DatabaseManager.given se), wk, rc, pl;
    repeat split; try reflexivity; try discriminate;
    try (intros H; decompose [and] H; discriminate).
Qed.

Example where_clause_two_filters :
  DatabaseManager.where_clause
    {| DatabaseManager.league_id := Some "L1";
       DatabaseManager.season := Some EmptyString;
       DatabaseManager.week := Some 0;
       DatabaseManager.roster_code := None;
       DatabaseManager.is_playoff := None;
       DatabaseManager.limit := 100;
       DatabaseManager.offset := 0 |}
  = "WHERE LeagueID = ? AND Week = ?".
Proof. reflexivity. Qed.

(** ** Acquiring from a well-formed store *)

Section Acquisition.

Import DatabaseManager.

Variables (cfg : Config.t) (b : bucket) (clk : Clock).

Lemma download_succeeds v w :
  well_stored cfg b v ->
  fst (download_database_from_s3 cfg b clk v w) = true.
Proof.
  intros [mo [fields [files [info [key [so [Hm [Hb [Hf [Hk [Hs Hq]]]]]]]]]]].
  unfold download_database_from_s3, download_file.
  rewrite Hm. rewrite lookup_write_same. cbn [option_map data].
  rewrite Hb, Hf, Hk, Hs.
  unfold _verify_database_integrity. cbn [cache].
  rewrite lookup_write_same. cbn [data]. now rewrite Hq.
Qed.

Lemma refresh_succeeds v m w0 :
  well_stored cfg b v ->
  fst (fst (refresh cfg b clk v m w0)) <> None.
Proof.
  intros Hw. unfold refresh.
  destruct (is_cache_valid cfg clk v w0) as [valid w1].
  destruct valid; simpl negb; cbv iota; [ discriminate |].
  pose proof (download_succeeds v w1 Hw) as Hd.
  destruct (download_database_from_s3 cfg b clk v w1) as [ok w2].
  simpl in Hd. subst ok. discriminate.
Qed.

End Acquisition.

(** X25. From a well-formed store, and when the local writes meet no I/O
    failure, [get_database_connection] returns a connection for a version
    with a true name that the cache directory can hold as a file name (no
    [/], no NUL, within the length of a file name), whatever the cache
    holds (no file, an expired one, one that fails the probe) and whatever
    the manager held; the manager then holds that connection for that
    version.  Names the directory cannot hold are left out: for them the
    local file cannot be created and the download fails. *)
Theorem acquire_from_well_formed_store :
  forall cfg b clk version m w,
    let v := resolve version (DatabaseManager.cache w) in
    truthy v = true ->
    storable (str v) ->
    well_stored cfg b v ->
    let res := DatabaseManager.get_database_connection cfg b clk version
                 m w in
    exists h,
      fst (fst res) = Some h /\
      DatabaseManager._db_connection (snd (fst res)) = Some h /\
      DatabaseManager._current_version (snd (fst res)) = v.
Proof.
  intros cfg b clk version m w v Ht _ Hw res.
  assert (Hsome : fst (fst res) <> None).
  { subst res. rewrite get_database_connection_unfold. fold v. cbv zeta.
    rewrite Ht. simpl negb. cbv iota.
    destruct (Py.eqb (DatabaseManager._current_version m) v);
      simpl negb; cbv iota; [| now apply refresh_succeeds ].
    destruct (DatabaseManager.is_cache_valid cfg clk v w) as [valid w'].
    destruct valid; simpl negb; cbv iota; [| now apply refresh_succeeds ].
    destruct (DatabaseManager._db_connection m) eqn:Eh;
      [ simpl; discriminate | now apply refresh_succeeds ]. }
  pose proof (get_database_connection_cases cfg b clk version m w) as H.
  cbv zeta in H. fold v res in H.
  destruct H as [[E _] | [[h [Eh [Ev [E _]]]] | [w2 [f [_ [_ [_ E]]]]]]].
  - rewrite E in Hsome. simpl in Hsome. congruence.
  - exists h. rewrite E. simpl. auto.
  - rewrite E. unfold replaced. simpl. eauto.
Qed.

Lemma acquire_from_well_formed_store_witness :
  exists h,
    fst (fst (DatabaseManager.get_database_connection Config.default
                sample_store sample_clock_late PNone DatabaseManager.init
                sample_world)) = Some h.
Proof.
  destruct (acquire_from_well_formed_store Config.default sample_store
              sample_clock_late PNone DatabaseManager.init sample_world)
    as [h [H _]].
  - reflexivity.
  - unfold storable. repeat split; vm_compute; lia.
  - unfold well_stored. repeat eexists; reflexivity.
  - exists h. exact H.
Defined.

(** X26. A call of [get_database_connection] that returns [None] leaves the
    manager as it was and opens and closes nothing: a connection held
    before a failed switch to another version stays open and stays the one
    the manager holds. *)
Theorem failed_acquire_keeps_connection :
  forall cfg b clk version m w,
    let res := DatabaseManager.get_database_connection cfg b clk version
                 m w in
    fst (fst res) = None ->
    snd (fst res) = m /\
    live (DatabaseManager.events (snd res))
    = live (DatabaseManager.events w).
Proof.
  intros cfg b clk version m w res Hn.
  pose proof (get_database_connection_cases cfg b clk version m w) as H.
  cbv zeta in H. fold res in H.
  destruct H as [[E Hq] | [[h [Eh [Ev [E _]]]] | [w2 [f [_ [_ [_ E]]]]]]].
  - split; [ now rewrite E | now apply quiet_live ].
  - rewrite E in Hn. discriminate.
  - rewrite E in Hn. discriminate.
Qed.

Lemma failed_acquire_keeps_connection_witness :
  let first := DatabaseManager.get_database_connection Config.default
                 sample_store sample_clock (PStr "v5") DatabaseManager.init
                 sample_world in
  let second := DatabaseManager.get_database_connection Config.default
                  sample_store_corrupt sample_clock_late (PStr "v4")
                  (snd (fst first)) (snd first) in
  fst (fst second) = None /\
  snd (fst second) = snd (fst first) /\
  live (DatabaseManager.events (snd second)) = [1%nat].
Proof.
  split; [ reflexivity |].
  destruct (failed_acquire_keeps_connection Config.default
              sample_store_corrupt sample_clock_late (PStr "v4")
              (snd (fst (DatabaseManager.get_database_connection
                           Config.default sample_store sample_clock
                           (PStr "v5") DatabaseManager.init sample_world)))
              (snd (DatabaseManager.get_database_connection
                      Config.default sample_store sample_clock
                      (PStr "v5") DatabaseManager.init sample_world))
              eq_refl) as [H1 H2].
  split; [ exact H1 |]. rewrite H2. reflexivity.
Defined.
